(** * COVID-19 dashboard: the time-series aggregation and ranking engine

    A shallow embedding of [covid_19_dashboard.py]: the module-level
    loading code (lines 15-25) and the Dash callback [update_graphs]
    (lines 86-134), followed by the properties of the specification that
    concern them.

    The program is a pipeline of pandas / plotly calls.  Each call is
    embedded as a function of the same name; the library routines whose
    result the program text does not determine (date parsing, the
    casting of a slice bound, numpy's default [argsort], and the int64
    and float64 arithmetic of sums and differences) are the fields of
    the class [PandasLib]. *)

From Stdlib Require Import ZArith String Ascii Bool Lia Arith List.
From Stdlib Require Import Permutation Sorted OrdersEx.
Import ListNotations.

Local Open Scope string_scope.
Local Open Scope list_scope.

(** ** Exceptions and the error monad *)

(** The Python exceptions the modelled calls can raise. *)
Inductive exn : Type :=
| EmptyDataError   (* pandas.errors.EmptyDataError, from read_csv *)
| ParserError      (* pandas.errors.ParserError, from read_csv *)
| KeyError         (* a label that is not on the axis *)
| TypeError        (* text among the counts; a slice bound that is no date *)
| ValueError       (* plotly express: y names no column of the frame *)
| IndexError.      (* iloc: positional indexer out of bounds *)

Inductive result (A : Type) : Type :=
| Ok (a : A)
| Raise (e : exn).
Arguments Ok {A} a.
Arguments Raise {A} e.

Definition bind {A B : Type} (c : result A) (k : A -> result B) : result B :=
  match c with
  | Ok a => k a
  | Raise e => Raise e
  end.

Declare Scope result_scope.
Delimit Scope result_scope with result.
Notation "x <- c ;; k" := (bind c (fun x => k))
  (at level 61, c at next level, right associativity) : result_scope.

(** ** Frames *)

(** What [pd.read_csv] returns: the columns in header order, each with
    its name and its cells, one per record, as the text that was read (a
    blank is a missing cell). *)
Definition RawFrame : Type := list (string * list string).

(** A numeric frame: named columns and labelled rows, one cell per
    column; [None] is NaN.  [L] is the type of the row labels: [string]
    before line 21, [option Z] (a timestamp, [None] for NaT) after. *)
Record Frame (L : Type) : Type := mkFrame {
  columns : list string;
  rows : list (L * list (option Z))
}.
Arguments mkFrame {L} columns rows.
Arguments columns {L} f.
Arguments rows {L} f.

Definition index {L : Type} (f : Frame L) : list L := map fst (rows f).

Definition Timestamp : Type := option Z.
Definition DataFrame : Type := Frame Timestamp.

(** Position of the first occurrence of a label. *)
Fixpoint get_loc (label : string) (axis : list string) : option nat :=
  match axis with
  | [] => None
  | c :: rest =>
      if String.eqb label c then Some 0%nat
      else match get_loc label rest with
           | Some p => Some (S p)
           | None => None
           end
  end.

Definition mem (label : string) (axis : list string) : bool :=
  existsb (String.eqb label) axis.

(** ** Reading the source: line 15 *)

(** The raw source is the CSV text as records of fields, header first. *)
Definition RawSource : Type := list (list string).

Definition field (r : list string) (p : nat) : string := nth p r "".

Fixpoint columns_of (header : list string) (records : list (list string))
  : RawFrame :=
  match header with
  | [] => []
  | c :: rest =>
      (c, map (fun r => field r 0) records)
      :: columns_of rest (map (@tl string) records)
  end.

(** The fields that [read_csv] takes for a missing value by default. *)
Definition na_values : list string :=
  [""; "#N/A"; "#N/A N/A"; "#NA"; "-1.#IND"; "-1.#QNAN"; "-NaN"; "-nan";
   "1.#IND"; "1.#QNAN"; "<NA>"; "N/A"; "NA"; "NULL"; "NaN"; "None"; "n/a";
   "nan"; "null"].

Definition na_filter (s : string) : string :=
  if mem s na_values then "" else s.

(** The records with every missing-value marker turned into a blank. *)
Definition cleaned (records : list (list string)) : list (list string) :=
  map (map na_filter) records.

(** [pd.read_csv]: no header line is an [EmptyDataError]; a record with
    more fields than the header is rejected; a shorter one is padded with
    blanks (here: a missing field reads as blank).  Header names are
    taken as written: a header that repeats a name, which pandas would
    rename, is outside the layout this development covers, and so is a
    source in which every record has one field more than the header
    (pandas takes the first field for a row label then).  Entity labels
    are kept as text, which is what pandas does when the entity column
    holds text (see [text_entities] below); a column in which every
    label reads as a number or a truth value is typed by pandas, and the
    properties that depend on the labels leave it out. *)
Definition read_csv (src : RawSource) : result RawFrame :=
  match src with
  | [] => Raise EmptyDataError
  | header :: records =>
      if existsb (fun r => (length header <? length r)%nat) records
      then Raise ParserError
      else Ok (columns_of header (cleaned records))
  end.

(** ** The library routines the program text leaves open

    The counts of the source are whole numbers, and so is every number
    of the tables: pandas holds them as int64 or, in a column with a
    missing value, as float64, and the arithmetic of both types on whole
    numbers gives whole numbers.  What it gives beyond the range where
    it is exact is the library's business. *)

Inductive side : Type := left | right.

Class PandasLib : Type := {
  (** [pd.to_datetime(label, errors='coerce')] on one label: the instant
      it denotes, [None] (NaT) when it does not parse. *)
  to_datetime : string -> Timestamp;
  (** [DatetimeIndex._maybe_cast_slice_bound]: a date string used as a
      slice bound denotes a period; the left bound casts to its first
      instant, the right bound to its last.  [None]: not a date. *)
  cast_slice_bound : string -> side -> option Z;
  (** [numpy.argsort(values, kind='quicksort')], the default sort of
      [Series.sort_values]: positions in ascending order of value. *)
  argsort : list Z -> list nat;
  (** The sum that [groupby().sum()] gives for the numbers of one group
      in one column, as they are written in the source and in record
      order.  The flag tells the type of the column: float64 ([true])
      or int64. *)
  column_sum : bool -> list Z -> Z;
  (** The float64 that an int64 cell becomes when [.T] brings int64 and
      float64 columns into one table. *)
  upcast : Z -> Z;
  (** The subtraction of [DataFrame.diff()] on two cells of the table;
      its outcome is a float64. *)
  subtract : Z -> Z -> Z
}.

(** ** Dropping, grouping, transposing: line 18 *)

(** [DataFrame.drop(labels, axis=1)]: every label must be a column. *)
Definition drop (labels : list string) (f : RawFrame) : result RawFrame :=
  if forallb (fun l => mem l (map fst f)) labels
  then Ok (filter (fun c => negb (mem (fst c) labels)) f)
  else Raise KeyError.

(** The integer a field denotes: decimal digits, with an optional sign. *)
Definition digit (c : ascii) : option Z :=
  let n := Z.of_nat (nat_of_ascii c) in
  if ((48 <=? n) && (n <=? 57))%Z then Some (n - 48)%Z else None.

Fixpoint digits (acc : Z) (s : string) : option Z :=
  match s with
  | EmptyString => Some acc
  | String c rest =>
      match digit c with
      | Some d => digits (10 * acc + d)%Z rest
      | None => None
      end
  end.

Definition to_numeric (s : string) : option Z :=
  match s with
  | EmptyString => None
  | String "-"%char rest =>
      match rest with
      | EmptyString => None
      | _ => option_map Z.opp (digits 0%Z rest)
      end
  | _ => digits 0%Z s
  end.

(** The numbers among some cells of a column, in order: a blank (NaN)
    is skipped by the sum.  Text that is no integer is outside the
    numeric layout of the source (pandas keeps such a column as text);
    the loader stops on it. *)
Fixpoint numbers (cells : list string) : result (list Z) :=
  match cells with
  | [] => Ok []
  | s :: rest =>
      if String.eqb s "" then numbers rest
      else match to_numeric s with
           | Some z => (zs <- numbers rest ;; Ok (z :: zs))%result
           | None => Raise TypeError
           end
  end.

(** The type [read_csv] gives a column of counts: float64 when a cell is
    missing, int64 otherwise. *)
Definition is_float (cells : list string) : bool :=
  existsb (fun s => String.eqb s "") cells.

Definition sum_cells `{PandasLib} (float : bool) (cells : list string)
  : result Z :=
  (zs <- numbers cells ;; Ok (column_sum float zs))%result.

(** Group keys come out sorted and without repetition ([sort=True]);
    keys that are text are ordered character by character. *)
Fixpoint insert_key (k : string) (keys : list string) : list string :=
  match keys with
  | [] => [k]
  | k' :: rest =>
      match String_as_OT.compare k k' with
      | Lt => k :: keys
      | Eq => keys
      | Gt => k' :: insert_key k rest
      end
  end.

Definition group_keys (labels : list string) : list string :=
  fold_right insert_key []
    (filter (fun s => negb (String.eqb s "")) labels).

Fixpoint traverse {A B : Type} (f : A -> result B) (l : list A)
  : result (list B) :=
  match l with
  | [] => Ok []
  | a :: rest =>
      (b <- f a ;; bs <- traverse f rest ;; Ok (b :: bs))%result
  end.

(** The cells of a column in the records whose key is [k]. *)
Definition members (k : string) (keys cells : list string) : list string :=
  map snd (filter (fun kc => String.eqb (fst kc) k) (combine keys cells)).

(** [groupby(key).sum()]: one row per key, one cell per remaining
    column; records whose key is blank belong to no group.  Every
    column keeps its type; the types come second in the outcome. *)
Definition groupby_sum `{PandasLib} (key : string) (f : RawFrame)
  : result (Frame string * list bool) :=
  match find (fun c => String.eqb (fst c) key) f with
  | None => Raise KeyError
  | Some (_, labels) =>
      let others := filter (fun c => negb (String.eqb (fst c) key)) f in
      (summed <-
         traverse (fun k =>
           cells <- traverse (fun c =>
                      z <- sum_cells (is_float (snd c))
                                     (members k labels (snd c)) ;;
                      Ok (Some z)) others ;;
           Ok (k, cells)) (group_keys labels) ;;
       Ok (mkFrame (map fst others) summed,
           map (fun c => is_float (snd c)) others))%result
  end.

Definition cell (r : list (option Z)) (p : nat) : option Z := nth p r None.

(** [DataFrame.T] of a frame whose columns have the types [dtypes]: the
    transposed table has one type, float64 as soon as one column had it,
    and the cells of the int64 columns are cast to it. *)
Definition T `{PandasLib} (dtypes : list bool) (f : Frame string)
  : Frame string :=
  let mixed := existsb (fun float => float) dtypes in
  mkFrame (index f)
    (map (fun p => (field (columns f) p,
                    map (fun r => if mixed && negb (nth p dtypes false)
                                  then option_map upcast (cell (snd r) p)
                                  else cell (snd r) p) (rows f)))
         (seq 0 (length (columns f)))).

Section Engine.

Context `{PandasLib}.

(** ** Time axis and cleaning: lines 21-22 *)

Definition set_index {L L' : Type} (g : L -> L') (f : Frame L) : Frame L' :=
  mkFrame (columns f) (map (fun r => (g (fst r), snd r)) (rows f)).

Definition notna (c : option Z) : bool :=
  match c with Some _ => true | None => false end.

(** [DataFrame.dropna()]: drops the rows that hold a NaN cell.  It looks
    at the cells, not at the row label. *)
Definition dropna {L : Type} (f : Frame L) : Frame L :=
  mkFrame (columns f) (filter (fun r => forallb notna (snd r)) (rows f)).

Definition dropped_labels : list string := ["Province/State"; "Lat"; "Long"].
Definition key_label : string := "Country/Region".

(** The statements of lines 15-22, in order. *)
Definition data (src : RawSource) : result DataFrame :=
  (raw <- read_csv src ;;
   dropped <- drop dropped_labels raw ;;
   grouped <- groupby_sum key_label dropped ;;
   let transposed := T (snd grouped) (fst grouped) in
   let dated := set_index to_datetime transposed in
   Ok (dropna dated))%result.

(** ** Daily new cases: line 25 *)

Definition sub_cell (a b : option Z) : option Z :=
  match a, b with
  | Some x, Some y => Some (subtract x y)
  | _, _ => None
  end.

Fixpoint diff_rows {L : Type} (prev : list (option Z))
  (rs : list (L * list (option Z))) : list (L * list (option Z)) :=
  match rs with
  | [] => []
  | (l, r) :: rest =>
      (l, map (fun p => sub_cell (cell r p) (cell prev p))
              (seq 0 (length r)))
      :: diff_rows r rest
  end.

(** [DataFrame.diff()]: each row minus the row before it; the first row
    has no predecessor and is all NaN. *)
Definition diff {L : Type} (f : Frame L) : Frame L :=
  mkFrame (columns f)
    (match rows f with
     | [] => []
     | (l, r) :: rest => (l, map (fun _ => None) r) :: diff_rows r rest
     end).

Definition fillna {L : Type} (v : Z) (f : Frame L) : Frame L :=
  mkFrame (columns f)
    (map (fun r => (fst r,
                    map (fun c => match c with
                                  | Some z => Some z
                                  | None => Some v
                                  end) (snd r)))
         (rows f)).

Definition daily_cases (d : DataFrame) : DataFrame := fillna 0%Z (diff d).

(** The module state after the top-level statements have run. *)
Record Module : Type := mkModule {
  mod_data : DataFrame;
  mod_daily_cases : DataFrame
}.

Definition startup (src : RawSource) : result Module :=
  (d <- data src ;; Ok (mkModule d (daily_cases d)))%result.

(** ** Slicing by date: lines 90-91 *)

Fixpoint nondecreasing_from (prev : Z) (idx : list Timestamp) : bool :=
  match idx with
  | [] => true
  | None :: _ => false
  | Some t :: rest => (prev <=? t)%Z && nondecreasing_from t rest
  end.

(** [Index.is_monotonic_increasing]: non-decreasing, and no NaT. *)
Definition is_monotonic_increasing (idx : list Timestamp) : bool :=
  match idx with
  | [] => true
  | None :: _ => false
  | Some t :: rest => nondecreasing_from t rest
  end.

Definition in_window (lo hi : Z) (t : Timestamp) : bool :=
  match t with
  | Some z => (lo <=? z)%Z && (z <=? hi)%Z
  | None => false
  end.

Definition has_label (t : Z) (idx : list Timestamp) : bool :=
  existsb (fun l => match l with
                    | Some z => (z =? t)%Z
                    | None => false
                    end) idx.

(** [frame.loc[start:stop]] with two date strings
    ([DatetimeIndex.slice_indexer]): the rows whose timestamp lies
    between the cast bounds, both ends included.  On an index that is
    not monotonic both cast bounds must be labels of the index. *)
Definition loc (f : DataFrame) (start stop : string) : result DataFrame :=
  match cast_slice_bound start left, cast_slice_bound stop right with
  | Some lo, Some hi =>
      let selected :=
        mkFrame (columns f)
                (filter (fun r => in_window lo hi (fst r)) (rows f)) in
      if is_monotonic_increasing (index f) then Ok selected
      else if has_label lo (index f) && has_label hi (index f)
           then Ok selected
           else Raise KeyError
  | _, _ => Raise TypeError
  end.

(** ** Figures *)

Inductive chart : Type := line | bar.

Record Trace : Type := mkTrace {
  name : string;
  points : list (Timestamp * option Z)
}.

Record Figure : Type := mkFigure {
  kind : chart;
  title : string;
  traces : list Trace
}.

Definition column {L : Type} (f : Frame L) (p : nat) : list (option Z) :=
  map (fun r => cell (snd r) p) (rows f).

Definition trace_of (f : DataFrame) (x : list Timestamp) (y : string)
  : result Trace :=
  match get_loc y (columns f) with
  | None => Raise ValueError
  | Some p => Ok (mkTrace y (combine x (column f p)))
  end.

(** [px.line] / [px.bar] with [x] an array and [y] a list of column
    names: every name must be a column of the frame; one trace per name,
    keyed by it. *)
Definition px (k : chart) (data_frame : DataFrame) (x : list Timestamp)
  (y : list string) (title : string) : result Figure :=
  (ts <- traverse (trace_of data_frame x) y ;; Ok (mkFigure k title ts))%result.

(** [px.line] / [px.bar] with [x] an array and [y] one column name: the
    name must be a column of the frame; the figure has one trace, and
    the trace has no name of its own (the name is the empty string). *)
Definition px_column (k : chart) (data_frame : DataFrame)
  (x : list Timestamp) (y : string) (title : string) : result Figure :=
  match get_loc y (columns data_frame) with
  | None => Raise ValueError
  | Some p =>
      Ok (mkFigure k title [mkTrace "" (combine x (column data_frame p))])
  end.

(** ** Ranking: line 114 *)

(** A pandas Series over the column axis: label and value. *)
Definition Series : Type := list (string * option Z).

(** [frame.iloc[-1]] *)
Definition row_series (axis : list string) (r : list (option Z)) : Series :=
  map (fun p => (field axis p, cell r p)) (seq 0 (length axis)).

Definition iloc_last (f : DataFrame) : result Series :=
  match rev (rows f) with
  | [] => Raise IndexError
  | (_, r) :: _ => Ok (row_series (columns f) r)
  end.

Definition item (s : Series) (i : nat) : string * option Z :=
  nth i s ("", None).

Definition number (c : option Z) : Z :=
  match c with Some z => z | None => 0%Z end.

Definition non_nan_positions (s : Series) : list nat :=
  filter (fun i => notna (snd (item s i))) (seq 0 (length s)).

Definition nan_positions (s : Series) : list nat :=
  filter (fun i => negb (notna (snd (item s i)))) (seq 0 (length s)).

(** The values handed to [argsort]: the non-NaN ones, order reversed. *)
Definition reversed_values (s : Series) : list Z :=
  map (fun i => number (snd (item s i))) (rev (non_nan_positions s)).

(** [Series.sort_values(ascending=False)], as pandas' [nargsort] does
    it: the non-NaN values are reversed, argsorted in ascending order
    with the default kind, and the outcome is reversed again; NaN go
    last. *)
Definition sort_values_descending (s : Series) : Series :=
  let reversed_idx := rev (non_nan_positions s) in
  let indexer :=
    rev (map (fun j => nth j reversed_idx 0%nat)
             (argsort (reversed_values s))) in
  map (item s) (indexer ++ nan_positions s).

Definition head (n : nat) (s : Series) : Series := firstn n s.

(** [frame[labels]]: the listed columns, in the listed order. *)
Definition getitem (f : DataFrame) (labels : list string) : result DataFrame :=
  (ps <- traverse (fun l => match get_loc l (columns f) with
                            | Some p => Ok p
                            | None => Raise KeyError
                            end) labels ;;
   Ok (mkFrame labels
               (map (fun r => (fst r, map (cell (snd r)) ps)) (rows f))))%result.

(** ** The callback: lines 86-134 *)

(** A computation that runs against the module state and may raise. *)
Definition Callback (A : Type) : Type := Module -> Module * result A.

Definition ret {A : Type} (a : A) : Callback A := fun m => (m, Ok a).

Definition cbind {A B : Type} (c : Callback A) (k : A -> Callback B)
  : Callback B :=
  fun m => match c m with
           | (m', Ok a) => k a m'
           | (m', Raise e) => (m', Raise e)
           end.

Definition lift {A : Type} (r : result A) : Callback A := fun m => (m, r).

Definition global_data : Callback DataFrame := fun m => (m, Ok (mod_data m)).
Definition global_daily_cases : Callback DataFrame :=
  fun m => (m, Ok (mod_daily_cases m)).

Declare Scope callback_scope.
Delimit Scope callback_scope with callback.
Notation "x <- c ;; k" := (cbind c (fun x => k))
  (at level 61, c at next level, right associativity) : callback_scope.

Inductive output : Type :=
| no_update
| figure (f : Figure).

Definition Outputs : Type := (output * output * output * output)%type.

(** Python's [not v] for a value that is [None] or a string. *)
Definition not_ (v : option string) : bool :=
  match v with
  | None => true
  | Some s => String.eqb s ""
  end.

Definition str (v : option string) : string :=
  match v with Some s => s | None => "" end.

Definition update_graphs (selected_country start_date end_date : option string)
  : Callback Outputs :=
  if not_ selected_country || not_ start_date || not_ end_date then
    ret (no_update, no_update, no_update, no_update)
  else
    let country := str selected_country in
    (data <- global_data ;;
     filtered_data <- lift (loc data (str start_date) (str end_date)) ;;
     daily_cases <- global_daily_cases ;;
     filtered_daily <- lift (loc daily_cases (str start_date) (str end_date)) ;;
     fig_cumulative <-
       lift (px_column line filtered_data (index filtered_data) country
               ("Cumulative COVID-19 Cases in " ++ country)) ;;
     fig_daily <-
       lift (px_column bar filtered_daily (index filtered_daily) country
               ("Daily New COVID-19 Cases in " ++ country)) ;;
     last_row <- lift (iloc_last filtered_data) ;;
     let top_countries :=
       map fst (head 5 (sort_values_descending last_row)) in
     top_data <- lift (getitem filtered_data top_countries) ;;
     fig_top_cumulative <-
       lift (px line top_data (index filtered_data) top_countries
               "Top 5 Countries by Cumulative COVID-19 Cases") ;;
     top_daily <- lift (getitem filtered_daily top_countries) ;;
     fig_top_daily <-
       lift (px line top_daily (index filtered_daily) top_countries
               "Top 5 Countries by Daily New COVID-19 Cases") ;;
     ret (figure fig_cumulative, figure fig_daily,
          figure fig_top_cumulative, figure fig_top_daily))%callback.

End Engine.

(** ** A reference library

    One instance of [PandasLib], used to run the program on concrete
    inputs: calendar dates in the two notations the dashboard meets
    (the headers of the source, [M/D/YY]; the date picker's [YYYY-MM-DD]),
    as nanoseconds since 1970-01-01 (the resolution of pandas 2),
    numpy's scalar quicksort (the path without vector instructions), and
    int64 and float64 arithmetic on whole numbers.  The properties that
    hold for every library do not depend on it. *)
Module Reference.

Local Open Scope Z_scope.

Fixpoint split_on (sep : ascii) (s : string) : list string :=
  match s with
  | EmptyString => [EmptyString]
  | String c rest =>
      if Ascii.eqb c sep then EmptyString :: split_on sep rest
      else match split_on sep rest with
           | [] => [String c EmptyString]
           | w :: ws => String c w :: ws
           end
  end.

Definition number_of (s : string) : option Z :=
  match s with
  | EmptyString => None
  | _ => digits 0 s
  end.

Definition is_leap (y : Z) : bool :=
  ((y mod 4 =? 0) && negb (y mod 100 =? 0)) || (y mod 400 =? 0).

Definition days_in_month (y m : Z) : Z :=
  if m =? 2 then (if is_leap y then 29 else 28)
  else if (m =? 4) || (m =? 6) || (m =? 9) || (m =? 11) then 30
  else 31.

(** Days from 1970-01-01 to the given civil date. *)
Definition days_from_civil (y m d : Z) : Z :=
  let y' := if m <=? 2 then y - 1 else y in
  let era := y' / 400 in
  let yoe := y' - era * 400 in
  let doy := (153 * (if 2 <? m then m - 3 else m + 9) + 2) / 5 + d - 1 in
  let doe := yoe * 365 + yoe / 4 - yoe / 100 + doy in
  era * 146097 + doe - 719468.

Definition day_ns : Z := 86400 * 1000000000.

Definition civil (y m d : Z) : option Z :=
  if (1 <=? m) && (m <=? 12) && (1 <=? d) && (d <=? days_in_month y m)
  then Some (days_from_civil y m d * day_ns)
  else None.

(** A two-digit year is read in 1969..2068. *)
Definition full_year (y : Z) (written : string) : Z :=
  if (String.length written <=? 2)%nat
  then (if y <? 69 then 2000 + y else 1900 + y)
  else y.

Definition parse_date (s : string) : option Z :=
  match split_on "/"%char s with
  | [m; d; y] =>
      match number_of m, number_of d, number_of y with
      | Some m', Some d', Some y' => civil (full_year y' y) m' d'
      | _, _, _ => None
      end
  | _ =>
      match split_on "-"%char s with
      | [y; m; d] =>
          match number_of y, number_of m, number_of d with
          | Some y', Some m', Some d' => civil y' m' d'
          | _, _, _ => None
          end
      | _ => None
      end
  end.

(** *** numpy's scalar argsort, kind quicksort ([npysort/quicksort]):
    median-of-three partitioning while a partition spans more than 16
    positions, insertion sort below, heapsort when the depth limit is
    exceeded.  [a] is the index array [tosort], [v] the values. *)

Local Open Scope nat_scope.

Definition get (a : list nat) (i : nat) : nat := nth i a 0.

Fixpoint set (a : list nat) (i x : nat) : list nat :=
  match a, i with
  | [], _ => []
  | _ :: rest, 0 => x :: rest
  | y :: rest, S i' => y :: set rest i' x
  end.

Definition swap (a : list nat) (i j : nat) : list nat :=
  set (set a i (get a j)) j (get a i).

Definition value (v : list Z) (a : list nat) (i : nat) : Z :=
  nth (get a i) v 0%Z.

Definition less (x y : Z) : bool := (x <? y)%Z.

Definition SMALL_QUICKSORT : nat := 16.

(** [do ++pi; while (v[*pi] < vp)], entered with [i] already advanced. *)
Fixpoint scan_up (fuel : nat) (v : list Z) (a : list nat) (vp : Z) (i : nat)
  : nat :=
  match fuel with
  | 0 => i
  | S fuel' =>
      if less (value v a i) vp then scan_up fuel' v a vp (S i) else i
  end.

(** [do --pj; while (vp < v[*pj])], entered with [j] already lowered. *)
Fixpoint scan_down (fuel : nat) (v : list Z) (a : list nat) (vp : Z) (j : nat)
  : nat :=
  match fuel with
  | 0 => j
  | S fuel' =>
      if less vp (value v a j) then scan_down fuel' v a vp (pred j) else j
  end.

Fixpoint partition_loop (fuel : nat) (v : list Z) (a : list nat) (vp : Z)
  (pi pj : nat) : list nat * nat :=
  match fuel with
  | 0 => (a, pi)
  | S fuel' =>
      let pi' := scan_up (length a) v a vp (S pi) in
      let pj' := scan_down (length a) v a vp (pred pj) in
      if pj' <=? pi' then (a, pi')
      else partition_loop fuel' v (swap a pi' pj') vp pi' pj'
  end.

Definition partition (v : list Z) (a : list nat) (pl pr : nat)
  : list nat * nat :=
  let pm := pl + Nat.div2 (pr - pl) in
  let a := if less (value v a pm) (value v a pl) then swap a pm pl else a in
  let a := if less (value v a pr) (value v a pm) then swap a pr pm else a in
  let a := if less (value v a pm) (value v a pl) then swap a pm pl else a in
  let vp := value v a pm in
  let pj := pr - 1 in
  let a := swap a pm pj in
  let '(a, pi) := partition_loop (length a) v a vp pl pj in
  (swap a pi (pr - 1), pi).

(** The inner [while (pj > pl && vp < v[*pk])] of the insertion sort. *)
Fixpoint shift (fuel : nat) (v : list Z) (a : list nat) (vp : Z)
  (pl pj : nat) : list nat * nat :=
  match fuel with
  | 0 => (a, pj)
  | S fuel' =>
      if (pl <? pj) && less vp (value v a (pj - 1))
      then shift fuel' v (set a pj (get a (pj - 1))) vp pl (pj - 1)
      else (a, pj)
  end.

Definition insert_at (v : list Z) (pl : nat) (a : list nat) (pi : nat)
  : list nat :=
  let vi := get a pi in
  let vp := nth vi v 0%Z in
  let '(a, pj) := shift (length a) v a vp pl pi in
  set a pj vi.

Definition insertion_sort (v : list Z) (a : list nat) (pl pr : nat)
  : list nat :=
  fold_left (insert_at v pl) (seq (S pl) (pr - pl)) a.

(** [aheapsort] on the [n] positions from [pl]; [a1 k] is its one-based
    [a[k]]. *)
Section Heap.
Variable v : list Z.
Variable pl : nat.

Definition a1 (a : list nat) (k : nat) : nat := get a (pl + k - 1).
Definition set1 (a : list nat) (k x : nat) : list nat := set a (pl + k - 1) x.

Fixpoint sift (fuel : nat) (a : list nat) (tmp n i j : nat) : list nat :=
  match fuel with
  | 0 => set1 a i tmp
  | S fuel' =>
      if j <=? n then
        let j := if (j <? n) && less (nth (a1 a j) v 0%Z)
                                     (nth (a1 a (j + 1)) v 0%Z)
                 then j + 1 else j in
        if less (nth tmp v 0%Z) (nth (a1 a j) v 0%Z)
        then sift fuel' (set1 a i (a1 a j)) tmp n j (j + j)
        else set1 a i tmp
      else set1 a i tmp
  end.

Definition heapify (n : nat) (a : list nat) : list nat :=
  fold_left (fun a l => sift n a (a1 a l) n l (2 * l))
            (rev (seq 1 (Nat.div2 n))) a.

Definition extract (a : list nat) (n : nat) : list nat :=
  let tmp := a1 a n in
  let a := set1 a n (a1 a 1) in
  sift n a tmp (n - 1) 1 2.

Definition aheapsort (a : list nat) (n : nat) : list nat :=
  fold_left extract (rev (seq 2 (n - 1))) (heapify n a).
End Heap.

(** The inner [while ((pr - pl) > SMALL_QUICKSORT)]: partition, push the
    larger part with the lowered depth, go on with the smaller. *)
Fixpoint partitioning (fuel : nat) (v : list Z) (a : list nat) (pl pr : nat)
  (cdepth : Z) (stack : list (nat * nat * Z))
  : list nat * nat * nat * Z * list (nat * nat * Z) :=
  match fuel with
  | 0 => (a, pl, pr, cdepth, stack)
  | S fuel' =>
      if SMALL_QUICKSORT <? pr - pl then
        let '(a, pi) := partition v a pl pr in
        let cdepth := (cdepth - 1)%Z in
        if pi - pl <? pr - pi
        then partitioning fuel' v a pl (pi - 1) cdepth
                          ((pi + 1, pr, cdepth) :: stack)
        else partitioning fuel' v a (pi + 1) pr cdepth
                          ((pl, pi - 1, cdepth) :: stack)
      else (a, pl, pr, cdepth, stack)
  end.

Fixpoint aquicksort_loop (fuel : nat) (v : list Z) (a : list nat)
  (pl pr : nat) (cdepth : Z) (stack : list (nat * nat * Z)) : list nat :=
  match fuel with
  | 0 => a
  | S fuel' =>
      let '(a, stack) :=
        if (cdepth <? 0)%Z then (aheapsort v pl a (pr - pl + 1), stack)
        else
          let '(a, pl, pr, _, stack) :=
            partitioning (length a) v a pl pr cdepth stack in
          (insertion_sort v a pl pr, stack) in
      match stack with
      | [] => a
      | (pl, pr, cdepth) :: stack => aquicksort_loop fuel' v a pl pr cdepth stack
      end
  end.

Definition aquicksort (v : list Z) : list nat :=
  let num := length v in
  aquicksort_loop (S num) v (seq 0 num) 0 (num - 1)
                  (Z.of_nat (2 * Nat.log2 num)) [].

(** int64 and float64 arithmetic on whole numbers.  An int64 wraps
    around at [2^63]; a float64 keeps 53 significant bits and rounds to
    the nearest, ties to the even one (whole numbers never reach the
    range where a float64 overflows in what follows). *)
Definition wrap64 (z : Z) : Z := ((z + 2 ^ 63) mod 2 ^ 64 - 2 ^ 63)%Z.

Definition round53 (z : Z) : Z :=
  (let m := Z.abs z in
   let shift := Z.log2 m - 52 in
   if shift <=? 0 then z
   else
     let q := Z.shiftr m shift in
     let r := m - Z.shiftl q shift in
     let half := Z.shiftl 1 (shift - 1) in
     let q' := if (half <? r) || ((r =? half) && Z.odd q) then q + 1 else q in
     Z.sgn z * Z.shiftl q' shift)%Z.

(** The sum of an int64 column. *)
Fixpoint int64_sum (sumx : Z) (zs : list Z) : Z :=
  match zs with
  | [] => sumx
  | z :: rest => int64_sum (wrap64 (sumx + z)%Z) rest
  end.

(** The sum of a float64 column, with pandas' running compensation. *)
Fixpoint float64_sum (sumx compensation : Z) (zs : list Z) : Z :=
  match zs with
  | [] => sumx
  | z :: rest =>
      let y := round53 (round53 z - compensation)%Z in
      let t := round53 (sumx + y)%Z in
      float64_sum t (round53 (round53 (t - sumx)%Z - y)%Z) rest
  end.

#[global] Instance library : PandasLib := {
  to_datetime := fun s => parse_date s;
  cast_slice_bound := fun s sd =>
    match parse_date s, sd with
    | Some t, left => Some t
    | Some t, right => Some (t + day_ns - 1)%Z
    | None, _ => None
    end;
  argsort := aquicksort;
  column_sum := fun float zs =>
    if float then float64_sum 0%Z 0%Z zs else int64_sum 0%Z zs;
  upcast := round53;
  subtract := fun a b => round53 (wrap64 (a - b)%Z)
}.

End Reference.

(** ** Reading a frame and a source *)

(** The cell of entity [e] in the row at position [i]. *)
Definition value_at {L : Type} (f : Frame L) (i : nat) (e : string)
  : option Z :=
  match get_loc e (columns f), nth_error (rows f) i with
  | Some p, Some (_, r) => cell r p
  | _, _ => None
  end.

(** The columns of the source that line 18 neither drops nor groups by:
    the date columns. *)
Definition is_date_column (c : string) : bool :=
  negb (mem c dropped_labels) && negb (String.eqb c key_label).

Definition date_labels (header : list string) : list string :=
  filter is_date_column header.

Definition date_positions (header : list string) : list nat :=
  filter (fun p => is_date_column (field header p)) (seq 0 (length header)).

(** The count a source cell stands for; a blank stands for none. *)
Definition count (s : string) : Z :=
  match to_numeric s with Some z => z | None => 0%Z end.

(** The sum, over the records of entity [e] (label in column [kp]), of
    the counts in column [p]. *)
Definition total (kp p : nat) (e : string) (records : list (list string)) : Z :=
  fold_right Z.add 0%Z
    (map (fun r => count (field r p))
         (filter (fun r => String.eqb (field r kp) e) records)).

(** The numbers entity [e] has in column [p], in record order. *)
Definition counts (kp p : nat) (e : string) (records : list (list string))
  : list Z :=
  map (fun r => count (field r p))
      (filter (fun r => negb (String.eqb (field r p) ""))
              (filter (fun r => String.eqb (field r kp) e) records)).

(** Whether column [p] of the records holds a blank. *)
Definition float_at (records : list (list string)) (p : nat) : bool :=
  existsb (fun r => String.eqb (field r p) "") records.

(** ** Where the tables hold exact numbers *)

(** int64 and float64 both hold every whole number up to [2^53] in
    absolute value, and both add and subtract such numbers exactly as
    long as the outcome stays in that range. *)
Definition exact_limit : Z := (2 ^ 53)%Z.

Definition magnitude (zs : list Z) : Z := fold_right Z.add 0%Z (map Z.abs zs).

Definition exact_arithmetic `{PandasLib} : Prop :=
  (forall float zs, (magnitude zs <= exact_limit)%Z ->
                    column_sum float zs = fold_right Z.add 0%Z zs) /\
  (forall z, (Z.abs z <= exact_limit)%Z -> upcast z = z) /\
  (forall a b, (Z.abs a <= exact_limit)%Z -> (Z.abs b <= exact_limit)%Z ->
               (Z.abs (a - b) <= exact_limit)%Z -> subtract a b = (a - b)%Z).

(** The counts of column [p] over some records, added up in absolute
    value. *)
Definition mass (p : nat) (records : list (list string)) : Z :=
  magnitude (map (fun r => count (field r p)) records).

(** No date column of the source holds more than [exact_limit] in all. *)
Definition within_limit (header : list string) (records : list (list string))
  : bool :=
  forallb (fun p => (mass p (cleaned records) <=? exact_limit)%Z)
          (date_positions header).

(** ** Entity labels that are text *)

(** [read_csv] types the entity column too: a column in which every
    label reads as a number or as a truth value is not kept as text.
    A label with a letter that occurs in no number and in no truth value
    settles that the column is text. *)
Definition lower (c : ascii) : ascii :=
  let n := nat_of_ascii c in
  if ((65 <=? n) && (n <=? 90))%nat then ascii_of_nat (n + 32) else c.

Definition literal_letters : list ascii :=
  ["a"; "d"; "e"; "f"; "i"; "j"; "l"; "n"; "p"; "r"; "s"; "t"; "u"; "x"; "y"]%char.

Definition is_letter (c : ascii) : bool :=
  let n := nat_of_ascii (lower c) in ((97 <=? n) && (n <=? 122))%nat.

Definition text_letter (c : ascii) : bool :=
  is_letter c && negb (existsb (Ascii.eqb (lower c)) literal_letters).

Definition text_label (s : string) : bool :=
  existsb text_letter (list_ascii_of_string s).

Definition text_entities (kp : nat) (records : list (list string)) : bool :=
  existsb (fun r => text_label (field r kp)) (cleaned records).

Definition countable (s : string) : bool :=
  String.eqb s "" || match to_numeric s with Some _ => true | None => false end.

Fixpoint distinct (names : list string) : bool :=
  match names with
  | [] => true
  | n :: rest => negb (mem n rest) && distinct rest
  end.

(** A source with the layout of the input boundary: a header of distinct
    names that has the entity column and the three columns to drop, no
    record longer than the header, and integers or missing values in the
    date columns. *)
Definition well_formed (src : RawSource) : bool :=
  match src with
  | [] => false
  | header :: records =>
      distinct header
      && negb (existsb (fun r => (length header <? length r)%nat) records)
      && forallb (fun l => mem l header) (key_label :: dropped_labels)
      && forallb (fun r => forallb (fun p => countable (field r p))
                                   (date_positions header)) (cleaned records)
  end.

(** The timestamps of an axis, NaT left out. *)
Fixpoint valid (idx : list Timestamp) : list Z :=
  match idx with
  | [] => []
  | Some t :: rest => t :: valid rest
  | None :: rest => valid rest
  end.


(** The frame that is read: column [p] holds field [p] of every record. *)
Definition column_at (header : list string) (records : list (list string))
  (p : nat) : string * list string :=
  (field header p, map (fun r => field r p) records).

(** What the loader returns, read off the source: one column per entity
    label, one row per date column, each cell the total of the entity. *)
Definition loaded `{PandasLib} (header : list string)
  (records : list (list string)) (kp : nat) : DataFrame :=
  let keys := group_keys (map (fun r => field r kp) records) in
  let mixed := existsb (float_at records) (date_positions header) in
  mkFrame keys
    (map (fun p =>
            (to_datetime (field header p),
             map (fun k =>
                    let z := column_sum (float_at records p)
                                        (counts kp p k records) in
                    Some (if mixed && negb (float_at records p)
                          then upcast z else z)) keys))
         (date_positions header)).

(** The same table with every cell the exact total of its entity. *)
Definition totals `{PandasLib} (header : list string)
  (records : list (list string)) (kp : nat) : DataFrame :=
  let keys := group_keys (map (fun r => field r kp) records) in
  mkFrame keys
    (map (fun p => (to_datetime (field header p),
                    map (fun k => Some (total kp p k records)) keys))
         (date_positions header)).


(** ** The callback as a function of the tables *)

(** Lines 90-134 with the two tables as arguments: what the callback
    computes once its three inputs are present. *)
Definition query `{PandasLib} (data daily_cases : DataFrame)
  (country start_date end_date : string)
  : result (Figure * Figure * Figure * Figure) :=
  (filtered_data <- loc data start_date end_date ;;
   filtered_daily <- loc daily_cases start_date end_date ;;
   fig_cumulative <-
     px_column line filtered_data (index filtered_data) country
        ("Cumulative COVID-19 Cases in " ++ country) ;;
   fig_daily <-
     px_column bar filtered_daily (index filtered_daily) country
        ("Daily New COVID-19 Cases in " ++ country) ;;
   last_row <- iloc_last filtered_data ;;
   let top_countries := map fst (head 5 (sort_values_descending last_row)) in
   top_data <- getitem filtered_data top_countries ;;
   fig_top_cumulative <-
     px line top_data (index filtered_data) top_countries
        "Top 5 Countries by Cumulative COVID-19 Cases" ;;
   top_daily <- getitem filtered_daily top_countries ;;
   fig_top_daily <-
     px line top_daily (index filtered_daily) top_countries
        "Top 5 Countries by Daily New COVID-19 Cases" ;;
   Ok (fig_cumulative, fig_daily, fig_top_cumulative, fig_top_daily))%result.

Definition figures (fs : Figure * Figure * Figure * Figure) : Outputs :=
  let '(a, b, c, d) := fs in (figure a, figure b, figure c, figure d).

(** ** What a sort has to deliver *)

Fixpoint ascending (vs : list Z) : bool :=
  match vs with
  | [] => true
  | v :: rest =>
      match rest with
      | [] => true
      | v' :: _ => (v <=? v')%Z && ascending rest
      end
  end.

(** [order] lists every position of [vals] once, by ascending value: the
    contract of an argsort, of any kind. *)
Definition sorts (vals : list Z) (order : list nat) : bool :=
  (length order =? length vals)%nat
  && forallb (fun i => existsb (Nat.eqb i) order) (seq 0 (length vals))
  && ascending (map (fun j => nth j vals 0%Z) order).

Definition value_of (x : string * option Z) : Z := number (snd x).

(** The entities a figure shows, in the order of its traces. *)
Definition shown (o : output) : list string :=
  match o with
  | figure f => map name (traces f)
  | no_update => []
  end.

Definition top5_shown (outcome : result Outputs) : list string :=
  match outcome with
  | Ok (_, _, top_cumulative, _) => shown top_cumulative
  | Raise _ => []
  end.

(** ** Sample inputs *)

Module Samples.

Import Reference.

Definition midnight (y m d : Z) : Timestamp :=
  Some (days_from_civil y m d * day_ns)%Z.

(** Two provinces of one country, a blank cell, a downward correction. *)
Definition source : RawSource :=
  [ ["Province/State"; "Country/Region"; "Lat"; "Long";
     "1/22/20"; "1/23/20"; "1/24/20"; "1/25/20"];
    ["Hubei"; "China"; "30.9756"; "112.2707"; "5"; "8"; "10"; "9"];
    [""; "France"; "46.2276"; "2.2137"; "0"; ""; "3"; "3"];
    ["Beijing"; "China"; "40.1824"; "116.4142"; "7"; "9"; "9"; "9"] ].

Definition table : DataFrame :=
  mkFrame ["China"; "France"]
    [ (midnight 2020 1 22, [Some 12; Some 0]);
      (midnight 2020 1 23, [Some 17; Some 0]);
      (midnight 2020 1 24, [Some 19; Some 3]);
      (midnight 2020 1 25, [Some 18; Some 3]) ]%Z.

Definition module : Module := mkModule table (daily_cases table).

(** The label columns, one record, no date column. *)
Definition no_dates : RawSource :=
  [ ["Province/State"; "Country/Region"; "Lat"; "Long"];
    ["Hubei"; "China"; "30.9756"; "112.2707"] ].

(** A header and no record. *)
Definition no_records : RawSource :=
  [ ["Province/State"; "Country/Region"; "Lat"; "Long"; "1/22/20"] ].


(** A column that is no date among the date columns. *)
Definition annotated : RawSource :=
  [ ["Province/State"; "Country/Region"; "Lat"; "Long"; "1/22/20"; "Population"];
    [""; "France"; "46.2276"; "2.2137"; "3"; "67"] ].

(** Eighteen entities; on the second day the first six hold the values
    of the specification's ranking example, with B and C tied at 90. *)
Definition ranking_source : RawSource :=
  ["Province/State"; "Country/Region"; "Lat"; "Long"; "1/22/20"; "1/23/20"]
  :: map (fun nv => [""; fst nv; "0"; "0"; "0"; snd nv])
         [ ("A", "100"); ("B", "90"); ("C", "90"); ("D", "80"); ("E", "70");
           ("F", "60"); ("G", "0"); ("H", "0"); ("I", "0"); ("J", "0");
           ("K", "0"); ("L", "0"); ("M", "0"); ("N", "0"); ("O", "0");
           ("P", "0"); ("Q", "0"); ("R", "0") ].

Definition ranking_last_row : list (option Z) :=
  map Some [100; 90; 90; 80; 70; 60; 0; 0; 0; 0; 0; 0; 0; 0; 0; 0; 0; 0]%Z.

Definition ranking_table : DataFrame :=
  mkFrame ["A"; "B"; "C"; "D"; "E"; "F"; "G"; "H"; "I"; "J"; "K"; "L"; "M";
           "N"; "O"; "P"; "Q"; "R"]
    [ (midnight 2020 1 22, repeat (Some 0%Z) 18);
      (midnight 2020 1 23, ranking_last_row) ].

Definition ranking_module : Module :=
  mkModule ranking_table (daily_cases ranking_table).



(** The six entities of the specification's example alone. *)
Definition example_row : Series :=
  [ ("A", Some 100); ("B", Some 90); ("C", Some 90); ("D", Some 80);
    ("E", Some 70); ("F", Some 60) ]%Z.

End Samples.

(** ** The layout: lines 41 and 51-52 *)

(** [data.index.min()] and [data.index.max()], the default range of the
    date picker: NaT is skipped; an axis without a timestamp gives NaT. *)
Definition index_min (idx : list Timestamp) : Timestamp :=
  match valid idx with
  | [] => None
  | t :: rest => Some (fold_left Z.min rest t)
  end.

Definition index_max (idx : list Timestamp) : Timestamp :=
  match valid idx with
  | [] => None
  | t :: rest => Some (fold_left Z.max rest t)
  end.


(** ** Further readings of a table *)

(** The rows of a table inside a window. *)
Definition window (lo hi : Z) (f : DataFrame)
  : list (Timestamp * list (option Z)) :=
  filter (fun r => in_window lo hi (fst r)) (rows f).

(** The series of the column at position [p] over some rows. *)
Definition series_points (rs : list (Timestamp * list (option Z))) (p : nat)
  : list (Timestamp * option Z) :=
  map (fun r => (fst r, cell (snd r) p)) rs.


(** The deltas of entity [e] added up over the rows 1 .. [i]. *)
Definition delta_sum (daily : DataFrame) (e : string) (i : nat) : Z :=
  fold_right Z.add 0%Z
    (map (fun j => number (value_at daily j e)) (seq 1 i)).

Definition before_bound (lo : Z) (t : Timestamp) : Prop :=
  exists z, t = Some z /\ (z < lo)%Z.

Definition after_bound (hi : Z) (t : Timestamp) : Prop :=
  exists z, t = Some z /\ (hi < z)%Z.

(** Further sample inputs. *)
Module MoreSamples.

(** The sample source with its records in another order and one record
    without an entity label. *)
Definition shuffled : RawSource :=
  [ ["Province/State"; "Country/Region"; "Lat"; "Long";
     "1/22/20"; "1/23/20"; "1/24/20"; "1/25/20"];
    ["Beijing"; "China"; "40.1824"; "116.4142"; "7"; "9"; "9"; "9"];
    ["Hubei"; "China"; "30.9756"; "112.2707"; "5"; "8"; "10"; "9"];
    [""; "France"; "46.2276"; "2.2137"; "0"; ""; "3"; "3"] ].


(** A header without the latitude column. *)
Definition no_latitude : RawSource :=
  [ ["Province/State"; "Country/Region"; "Long"; "1/22/20"];
    [""; "France"; "2.2137"; "3"] ].

Definition no_figure : Figure := mkFigure line "" [].

(** The figures of France over the first two days of the sample table. *)
Definition france_two_days : Figure * Figure * Figure * Figure :=
  Eval vm_compute in
    match query (H := Reference.library) Samples.table (daily_cases Samples.table)
                "France" "2020-01-22" "2020-01-23" with
    | Ok fs => fs
    | Raise _ => (no_figure, no_figure, no_figure, no_figure)
    end.

End MoreSamples.

(** * Properties *)

(** ** Generic facts *)

Lemma cell_tabulate (g : nat -> option Z) (n p : nat) :
  (p < n)%nat -> cell (map g (seq 0 n)) p = g p.
Proof.
  intro Hp. unfold cell.
  rewrite (nth_indep _ None (g 0%nat)) by (rewrite length_map, length_seq; exact Hp).
  rewrite (map_nth g), seq_nth by exact Hp. reflexivity.
Qed.

Lemma cell_some_lt (r : list (option Z)) (p : nat) (z : Z) :
  cell r p = Some z -> (p < length r)%nat.
Proof.
  unfold cell. intro Hc.
  destruct (Nat.lt_ge_cases p (length r)) as [Hlt | Hge]; [exact Hlt |].
  rewrite nth_overflow in Hc by exact Hge. discriminate.
Qed.

Lemma get_loc_lt (e : string) (axis : list string) (p : nat) :
  get_loc e axis = Some p -> (p < length axis)%nat /\ nth p axis "" = e.
Proof.
  revert p. induction axis as [| c rest IH]; simpl; intros p Hp.
  - discriminate.
  - destruct (String.eqb e c) eqn:Hec.
    + injection Hp as <-. apply String.eqb_eq in Hec. split; [lia | auto].
    + destruct (get_loc e rest) as [q |]; [| discriminate].
      injection Hp as <-. destruct (IH q eq_refl). split; [lia | assumption].
Qed.

Lemma get_loc_mem (e : string) (axis : list string) :
  mem e axis = true <-> exists p, get_loc e axis = Some p.
Proof.
  unfold mem. induction axis as [| c rest IH]; simpl.
  - split; [discriminate | intros [p Hp]; discriminate].
  - destruct (String.eqb e c); simpl.
    + split; [intros _; exists 0%nat; reflexivity | reflexivity].
    + rewrite IH. split; intros [p Hp].
      * rewrite Hp. eauto.
      * destruct (get_loc e rest); [eauto | discriminate].
Qed.

Lemma mem_In (e : string) (axis : list string) :
  mem e axis = true <-> In e axis.
Proof.
  unfold mem. rewrite existsb_exists. split.
  - intros [x [Hin Heq]]. apply String.eqb_eq in Heq. subst. exact Hin.
  - intro Hin. exists e. split; [exact Hin | apply String.eqb_refl].
Qed.

(** ** The delta table *)

Section Delta.

Context `{PandasLib}.

Lemma diff_rows_next {L : Type} (rs : list (L * list (option Z))) :
  forall prev i l r l' r',
    nth_error rs i = Some (l, r) ->
    nth_error rs (S i) = Some (l', r') ->
    nth_error (diff_rows prev rs) (S i)
    = Some (l', map (fun p => sub_cell (cell r' p) (cell r p))
                    (seq 0 (length r'))).
Proof.
  induction rs as [| [l0 r0] rest IH]; intros prev i l r l' r' Hi HSi.
  - destruct i; discriminate.
  - destruct i as [| i].
    + simpl in Hi. injection Hi as -> ->.
      destruct rest as [| [l1 r1] rest']; [discriminate |].
      simpl in HSi. injection HSi as -> ->. reflexivity.
    + simpl in Hi. change (nth_error rest (S i) = Some (l', r')) in HSi.
      change (nth_error (diff_rows r0 rest) (S i) = Some (l', map (fun p => sub_cell (cell r' p) (cell r p)) (seq 0 (length r')))).
      eapply IH; eassumption.
Qed.

Lemma diff_next {L : Type} (f : Frame L) i l r l' r' :
  nth_error (rows f) i = Some (l, r) ->
  nth_error (rows f) (S i) = Some (l', r') ->
  nth_error (rows (diff f)) (S i)
  = Some (l', map (fun p => sub_cell (cell r' p) (cell r p))
                  (seq 0 (length r'))).
Proof.
  unfold diff. simpl. destruct (rows f) as [| [l0 r0] rest]; intros Hi HSi.
  - destruct i; discriminate.
  - destruct i as [| i].
    + simpl in Hi. injection Hi as -> ->.
      destruct rest as [| [l1 r1] rest']; [discriminate |].
      simpl in HSi. injection HSi as -> ->. reflexivity.
    + simpl in Hi. change (nth_error rest (S i) = Some (l', r')) in HSi.
      change (nth_error (diff_rows r0 rest) (S i) = Some (l', map (fun p => sub_cell (cell r' p) (cell r p)) (seq 0 (length r')))).
      eapply diff_rows_next; eassumption.
Qed.

Lemma fillna_row {L : Type} (v : Z) (f : Frame L) i l r :
  nth_error (rows f) i = Some (l, r) ->
  nth_error (rows (fillna v f)) i
  = Some (l, map (fun c => match c with Some z => Some z | None => Some v end) r).
Proof.
  intro Hi. unfold fillna. simpl. rewrite nth_error_map, Hi. reflexivity.
Qed.

Lemma cell_map_nth {A : Type} (g : A -> option Z) (l : list A) (p : nat) (d : A) :
  (p < length l)%nat -> cell (map g l) p = g (nth p l d).
Proof.
  intro Hp. unfold cell.
  rewrite (nth_indep _ None (g d)) by (rewrite length_map; exact Hp).
  apply map_nth.
Qed.

Lemma cell_map (g : option Z -> option Z) (r : list (option Z)) (p : nat) :
  (p < length r)%nat -> cell (map g r) p = g (cell r p).
Proof.
  intro Hp. unfold cell at 2. apply cell_map_nth. exact Hp.
Qed.

(** The cell of a later row is the library's subtraction of the two
    cumulative values. *)
Lemma daily_cases_later_row (d : DataFrame) (e : string) (i : nat) (x y : Z) :
  value_at d i e = Some x ->
  value_at d (S i) e = Some y ->
  value_at (daily_cases d) (S i) e = Some (subtract y x).
Proof.
  unfold value_at. change (columns (daily_cases d)) with (columns d).
  destruct (get_loc e (columns d)) as [p |]; [| intros; discriminate].
  intros Hx Hy.
  destruct (nth_error (rows d) i) as [[l r] |] eqn:Hi; [| discriminate].
  destruct (nth_error (rows d) (S i)) as [[l' r'] |] eqn:HSi; [| discriminate].
  unfold daily_cases.
  rewrite (fillna_row 0%Z (diff d) (S i) l' _ (diff_next d i l r l' r' Hi HSi)).
  pose proof (cell_some_lt _ _ _ Hy) as Hlt.
  rewrite cell_map by (rewrite length_map, length_seq; exact Hlt).
  rewrite cell_tabulate by exact Hlt.
  rewrite Hx, Hy. reflexivity.
Qed.


End Delta.

(** ** The loader *)

Lemma bind_ok {A B : Type} (c : result A) (k : A -> result B) (b : B) :
  bind c k = Ok b -> exists a, c = Ok a /\ k a = Ok b.
Proof.
  destruct c as [a | e]; simpl; intro Hb; [eauto | discriminate].
Qed.

Lemma traverse_map {A B : Type} (f : A -> result B) (h : A -> B) (l : list A) :
  (forall a b, In a l -> f a = Ok b -> b = h a) ->
  forall bs, traverse f l = Ok bs -> bs = map h l.
Proof.
  induction l as [| a rest IH]; simpl; intros Hh bs Hbs.
  - injection Hbs as <-. reflexivity.
  - apply bind_ok in Hbs. destruct Hbs as [b [Hb Hbs]].
    apply bind_ok in Hbs. destruct Hbs as [bs' [Hbs' Hbs]].
    injection Hbs as <-.
    rewrite (Hh a b (or_introl eq_refl) Hb).
    rewrite (IH (fun a' b' Hin => Hh a' b' (or_intror Hin)) bs' Hbs').
    reflexivity.
Qed.

Lemma traverse_total {A B : Type} (f : A -> result B) (l : list A) :
  (forall a, In a l -> exists b, f a = Ok b) ->
  exists bs, traverse f l = Ok bs.
Proof.
  induction l as [| a rest IH]; simpl; intro Hf.
  - eauto.
  - destruct (Hf a (or_introl eq_refl)) as [b Hb]. rewrite Hb. simpl.
    destruct (IH (fun a' Hin => Hf a' (or_intror Hin))) as [bs Hbs].
    rewrite Hbs. simpl. eauto.
Qed.

Lemma field_tl (r : list string) (p : nat) : field (tl r) p = field r (S p).
Proof. destruct r; [destruct p |]; reflexivity. Qed.

Lemma columns_of_seq (header : list string) :
  forall records,
    columns_of header records
    = map (column_at header records) (seq 0 (length header)).
Proof.
  induction header as [| c rest IH]; intro records; simpl.
  - reflexivity.
  - f_equal. rewrite IH, <- seq_shift, map_map.
    apply map_ext. intro p. unfold column_at. simpl. f_equal.
    rewrite map_map. apply map_ext. intro r. apply field_tl.
Qed.

Lemma filter_filter {A : Type} (P Q : A -> bool) (l : list A) :
  filter Q (filter P l) = filter (fun a => P a && Q a) l.
Proof.
  induction l as [| a rest IH]; simpl; [reflexivity |].
  destruct (P a); simpl; [destruct (Q a) |]; rewrite ?IH; reflexivity.
Qed.

Lemma find_filter {A : Type} (P Q : A -> bool) (l : list A) :
  (forall a, P a = true -> Q a = true) ->
  find P (filter Q l) = find P l.
Proof.
  intro HPQ. induction l as [| a rest IH]; simpl; [reflexivity |].
  destruct (Q a) eqn:HQ; simpl.
  - rewrite IH. reflexivity.
  - destruct (P a) eqn:HP; [| exact IH].
    rewrite (HPQ a HP) in HQ. discriminate.
Qed.

Lemma find_column (key : string) (header : list string) :
  forall records,
    find (fun c => String.eqb (fst c) key) (columns_of header records)
    = match get_loc key header with
      | Some kp => Some (column_at header records kp)
      | None => None
      end.
Proof.
  induction header as [| c rest IH]; intro records; simpl; [reflexivity |].
  rewrite (String.eqb_sym key c).
  destruct (String.eqb c key); [reflexivity |].
  rewrite IH. destruct (get_loc key rest) as [kp |]; [| reflexivity].
  unfold column_at. simpl. do 2 f_equal.
  rewrite map_map. apply map_ext. intro r. apply field_tl.
Qed.

Lemma others_are_date_columns (header : list string) (records : list (list string)) :
  filter (fun c => negb (String.eqb (fst c) key_label))
         (filter (fun c => negb (mem (fst c) dropped_labels))
                 (columns_of header records))
  = map (column_at header records) (date_positions header).
Proof.
  rewrite filter_filter, columns_of_seq, filter_map_swap. reflexivity.
Qed.

Lemma members_of_records (k : string) (kp p : nat) (records : list (list string)) :
  members k (map (fun r => field r kp) records) (map (fun r => field r p) records)
  = map (fun r => field r p)
        (filter (fun r => String.eqb (field r kp) k) records).
Proof.
  unfold members. induction records as [| r rest IH]; simpl; [reflexivity |].
  destruct (String.eqb (field r kp) k); simpl; rewrite IH; reflexivity.
Qed.

Lemma numbers_counts (cells : list string) :
  forall zs, numbers cells = Ok zs ->
             zs = map count (filter (fun s => negb (String.eqb s "")) cells).
Proof.
  induction cells as [| s rest IH]; simpl; intros zs Hzs.
  - injection Hzs as <-. reflexivity.
  - destruct (String.eqb s "") eqn:Hs; simpl; [exact (IH zs Hzs) |].
    unfold count at 1. destruct (to_numeric s) as [z |]; [| discriminate].
    apply bind_ok in Hzs. destruct Hzs as [zs' [Hzs' Hzs]].
    injection Hzs as <-. rewrite (IH zs' Hzs'). reflexivity.
Qed.

Lemma numbers_total (cells : list string) :
  forallb countable cells = true -> exists zs, numbers cells = Ok zs.
Proof.
  induction cells as [| s rest IH]; simpl; intro Hc.
  - eauto.
  - apply andb_prop in Hc. destruct Hc as [Hs Hrest].
    destruct (IH Hrest) as [t Ht]. rewrite Ht.
    unfold countable in Hs.
    destruct (String.eqb s ""); simpl; [eauto |].
    simpl in Hs. destruct (to_numeric s); simpl; [eauto | discriminate].
Qed.

Lemma map_nth_seq {A B : Type} (g : A -> B) (l : list A) (d : A) :
  map (fun i => g (nth i l d)) (seq 0 (length l)) = map g l.
Proof.
  induction l as [| a rest IH]; simpl; [reflexivity |].
  f_equal. rewrite <- seq_shift, map_map. exact IH.
Qed.

Lemma existsb_map_comp {A B : Type} (g : A -> B) (P : B -> bool) (l : list A) :
  existsb P (map g l) = existsb (fun a => P (g a)) l.
Proof.
  induction l as [| a rest IH]; simpl; [| rewrite IH]; reflexivity.
Qed.

Lemma is_float_column (header : list string) (records : list (list string))
  (p : nat) :
  is_float (snd (column_at header records p)) = float_at records p.
Proof.
  unfold is_float, column_at, float_at. simpl. apply existsb_map_comp.
Qed.

(** The numbers of an entity in a column, and their total. *)
Lemma count_blank (s : string) : String.eqb s "" = true -> count s = 0%Z.
Proof. intro Hs. apply String.eqb_eq in Hs. subst s. reflexivity. Qed.

Lemma counts_total (kp p : nat) (e : string) (records : list (list string)) :
  fold_right Z.add 0%Z (counts kp p e records) = total kp p e records.
Proof.
  unfold counts, total.
  induction (filter (fun r => String.eqb (field r kp) e) records)
    as [| r rest IH]; simpl; [reflexivity |].
  destruct (String.eqb (field r p) "") eqn:Hb; simpl.
  - rewrite (count_blank _ Hb), IH. reflexivity.
  - rewrite IH. reflexivity.
Qed.


Lemma magnitude_nonneg (zs : list Z) : (0 <= magnitude zs)%Z.
Proof.
  unfold magnitude. induction zs as [| z rest IH]; simpl; lia.
Qed.

Lemma abs_sum_le_magnitude (zs : list Z) :
  (Z.abs (fold_right Z.add 0%Z zs) <= magnitude zs)%Z.
Proof.
  unfold magnitude. induction zs as [| z rest IH]; simpl; lia.
Qed.

Lemma magnitude_counts (kp p : nat) (e : string) (records : list (list string)) :
  (magnitude (counts kp p e records)
   <= mass p (filter (fun r => String.eqb (field r kp) e) records))%Z.
Proof.
  unfold counts, mass, magnitude.
  induction (filter (fun r => String.eqb (field r kp) e) records)
    as [| r rest IH]; simpl; [lia |].
  destruct (String.eqb (field r p) ""); simpl; lia.
Qed.

Lemma mass_filter (p : nat) (keep : list string -> bool)
  (records : list (list string)) :
  (mass p (filter keep records) <= mass p records)%Z.
Proof.
  unfold mass, magnitude.
  induction records as [| r rest IH]; simpl; [lia |].
  destruct (keep r); simpl; lia.
Qed.

(** The group keys are in strictly ascending order. *)
Lemma HdRel_insert_key (a k : string) (keys : list string) :
  HdRel String_as_OT.lt a keys -> String_as_OT.lt a k ->
  HdRel String_as_OT.lt a (insert_key k keys).
Proof.
  intros Hkeys Hk. destruct keys as [| k' rest]; simpl.
  - constructor. exact Hk.
  - apply HdRel_inv in Hkeys.
    destruct (String_as_OT.compare k k'); constructor; assumption.
Qed.

Lemma insert_key_sorted (k : string) (keys : list string) :
  Sorted String_as_OT.lt keys -> Sorted String_as_OT.lt (insert_key k keys).
Proof.
  induction keys as [| k' rest IH]; simpl; intro Hs.
  - repeat constructor.
  - apply Sorted_inv in Hs. destruct Hs as [Hrest Hhd].
    destruct (String_as_OT.compare_spec k k') as [Heq | Hlt | Hgt].
    + constructor; assumption.
    + constructor; [constructor; assumption | constructor; exact Hlt].
    + constructor; [apply IH; exact Hrest |].
      apply HdRel_insert_key; assumption.
Qed.

Lemma group_keys_sorted (labels : list string) :
  StronglySorted String_as_OT.lt (group_keys labels).
Proof.
  apply Sorted_StronglySorted.
  - intros x y z. apply (@RelationClasses.StrictOrder_Transitive _ _ String_as_OT.lt_strorder).
  - unfold group_keys.
    induction (filter (fun s => negb (String.eqb s "")) labels) as [| l rest IH];
      simpl; [constructor | apply insert_key_sorted; exact IH].
Qed.

Lemma strictly_sorted_NoDup (keys : list string) :
  StronglySorted String_as_OT.lt keys -> NoDup keys.
Proof.
  induction keys as [| k rest IH]; intro Hs; [constructor |].
  apply StronglySorted_inv in Hs. destruct Hs as [Hrest Hk].
  constructor; [| apply IH; exact Hrest].
  intro Hin. rewrite Forall_forall in Hk. specialize (Hk k Hin).
  exact (@RelationClasses.StrictOrder_Irreflexive _ _ String_as_OT.lt_strorder k Hk).
Qed.

Section Loader.

Context `{PandasLib}.

Lemma groupby_sum_explicit header records grouped :
  groupby_sum key_label
    (filter (fun c => negb (mem (fst c) dropped_labels))
            (columns_of header records)) = Ok grouped ->
  exists kp,
    get_loc key_label header = Some kp /\
    grouped
    = (mkFrame (map (field header) (date_positions header))
         (map (fun k =>
                 (k, map (fun p => Some (column_sum (float_at records p)
                                           (counts kp p k records)))
                         (date_positions header)))
              (group_keys (map (fun r => field r kp) records))),
       map (float_at records) (date_positions header)).
Proof.
  unfold groupby_sum.
  rewrite find_filter, find_column.
  2:{ intros c Hc. apply String.eqb_eq in Hc. rewrite Hc. reflexivity. }
  destruct (get_loc key_label header) as [kp |]; [| discriminate].
  unfold column_at at 1.
  rewrite others_are_date_columns. intro Hg.
  apply bind_ok in Hg. destruct Hg as [summed [Hsummed Hg]].
  injection Hg as <-. exists kp. split; [reflexivity |].
  rewrite !map_map. f_equal.
  2:{ apply map_ext. intro p. apply is_float_column. }
  f_equal.
  revert Hsummed. apply traverse_map.
  intros k row _ Hrow.
  apply bind_ok in Hrow. destruct Hrow as [cells [Hcells Hrow]].
  injection Hrow as <-. f_equal.
  assert (Hh : forall (c : string * list string) (v : option Z),
             In c (map (column_at header records) (date_positions header)) ->
             (z <- sum_cells (is_float (snd c))
                    (members k (map (fun r => field r kp) records) (snd c)) ;;
              Ok (Some z))%result = Ok v ->
             v = Some (column_sum (is_float (snd c))
                   (map count
                      (filter (fun s => negb (String.eqb s ""))
                         (members k (map (fun r => field r kp) records) (snd c)))))).
  { intros c v _ Hv. apply bind_ok in Hv. destruct Hv as [z [Hz Hv]].
    injection Hv as <-. f_equal.
    unfold sum_cells in Hz. apply bind_ok in Hz. destruct Hz as [zs [Hzs Hz]].
    injection Hz as <-. rewrite (numbers_counts _ zs Hzs). reflexivity. }
  rewrite (traverse_map _ _ _ Hh cells Hcells).
  rewrite map_map. apply map_ext. intro p.
  rewrite is_float_column.
  unfold column_at, counts. simpl.
  rewrite members_of_records, filter_map_swap, map_map. reflexivity.
Qed.

Lemma T_tabulated (lab : nat -> string) (fl : nat -> bool)
  (g : nat -> string -> Z) (ps : list nat) (keys : list string) :
  T (map fl ps)
    (mkFrame (map lab ps)
       (map (fun k => (k, map (fun p => Some (g p k)) ps)) keys))
  = mkFrame keys
      (map (fun p => (lab p,
                      map (fun k => Some (if existsb fl ps && negb (fl p)
                                          then upcast (g p k) else g p k))
                          keys))
           ps).
Proof.
  unfold T, index. simpl. f_equal.
  - rewrite map_map. simpl. apply map_id.
  - rewrite length_map, existsb_map_comp.
    rewrite <- (map_nth_seq
                  (fun p => (lab p,
                             map (fun k => Some (if existsb fl ps && negb (fl p)
                                                 then upcast (g p k) else g p k))
                                 keys))
                  ps 0%nat).
    apply map_ext_in. intros i Hi. apply in_seq in Hi. destruct Hi as [_ Hi].
    simpl in Hi. f_equal.
    + unfold field at 1.
      rewrite (nth_indep _ "" (lab 0%nat)) by (rewrite length_map; exact Hi).
      apply map_nth.
    + rewrite map_map. apply map_ext. intro k. simpl.
      rewrite (nth_indep _ false (fl 0%nat)) by (rewrite length_map; exact Hi).
      rewrite (map_nth fl).
      rewrite (cell_map_nth (fun p => Some (g p k)) ps i 0%nat) by exact Hi.
      destruct (existsb fl ps && negb (fl (nth i ps 0%nat))); reflexivity.
Qed.

Lemma dropna_loaded header records kp : dropna (loaded header records kp) = loaded header records kp.
Proof.
  unfold dropna, loaded. simpl. f_equal.
  apply forallb_filter_id. apply forallb_forall.
  intros r Hr. apply in_map_iff in Hr. destruct Hr as [p [<- _]]. simpl.
  apply forallb_forall. intros c Hc.
  apply in_map_iff in Hc. destruct Hc as [k [<- _]]. reflexivity.
Qed.

(** The loader either raises or returns the frame [loaded]. *)
Lemma data_explicit header records d :
  data (header :: records) = Ok d ->
  exists kp, get_loc key_label header = Some kp /\
             d = loaded header (cleaned records) kp.
Proof.
  unfold data. intro Hd.
  apply bind_ok in Hd. destruct Hd as [raw [Hraw Hd]].
  apply bind_ok in Hd. destruct Hd as [dropped [Hdropped Hd]].
  apply bind_ok in Hd. destruct Hd as [grouped [Hgrouped Hd]].
  injection Hd as <-.
  unfold read_csv in Hraw.
  destruct (existsb _ records); [discriminate |]. injection Hraw as <-.
  unfold drop in Hdropped.
  destruct (forallb _ dropped_labels); [| discriminate]. injection Hdropped as <-.
  apply groupby_sum_explicit in Hgrouped. destruct Hgrouped as [kp [Hkp ->]].
  exists kp. split; [exact Hkp |].
  cbn [fst snd].
  rewrite (T_tabulated (field header) (float_at (cleaned records))
             (fun p k => column_sum (float_at (cleaned records) p)
                           (counts kp p k (cleaned records)))).
  rewrite <- dropna_loaded. f_equal.
  unfold set_index, loaded. simpl. f_equal. rewrite map_map. reflexivity.
Qed.

(** Where the arithmetic is exact and no column holds too much, every
    cell of the loaded table is the total of its entity. *)
Lemma loaded_exact header records kp :
  exact_arithmetic ->
  forallb (fun p => (mass p records <=? exact_limit)%Z) (date_positions header)
  = true ->
  loaded header records kp = totals header records kp.
Proof.
  intros [Hsum [Hup _]] Hlim. unfold loaded, totals. f_equal.
  apply map_ext_in. intros p Hp. f_equal.
  apply map_ext. intro k. f_equal.
  rewrite forallb_forall in Hlim. specialize (Hlim p Hp).
  apply Z.leb_le in Hlim.
  pose proof (magnitude_counts kp p k records) as Hm.
  pose proof (mass_filter p (fun r => String.eqb (field r kp) k) records) as Hf.
  rewrite Hsum by lia. rewrite counts_total.
  assert (Hup' : upcast (total kp p k records) = total kp p k records).
  { apply Hup. rewrite <- counts_total.
    pose proof (abs_sum_le_magnitude (counts kp p k records)). lia. }
  rewrite Hup'. destruct (_ && _); reflexivity.
Qed.

Lemma map_fst_columns_of header : forall records,
  map fst (columns_of header records) = header.
Proof.
  induction header as [| c rest IH]; intro records; simpl; [reflexivity |].
  rewrite IH. reflexivity.
Qed.

Lemma group_keys_In (labels : list string) (k : string) :
  In k (group_keys labels) -> In k labels /\ k <> "".
Proof.
  unfold group_keys.
  assert (Hins : forall x keys, In k (insert_key x keys) -> k = x \/ In k keys).
  { intros x keys. induction keys as [| k' rest IH]; simpl.
    - intros [-> | []]. left. reflexivity.
    - destruct (String_as_OT.compare x k'); simpl.
      + tauto.
      + intros [-> | Hin]; [left; reflexivity | right; exact Hin].
      + intros [-> | Hin]; [right; left; reflexivity |].
        destruct (IH Hin); [left | right; right]; assumption. }
  induction labels as [| l rest IH]; simpl; [intros [] |].
  destruct (String.eqb l "") eqn:Hl; simpl.
  - intro Hin. destruct (IH Hin). split; [right |]; assumption.
  - intro Hin. apply Hins in Hin. destruct Hin as [-> | Hin].
    + split; [left; reflexivity |]. intro Hk. subst l. discriminate.
    + destruct (IH Hin). split; [right |]; assumption.
Qed.

Lemma In_group_keys (labels : list string) (k : string) :
  In k labels -> k <> "" -> In k (group_keys labels).
Proof.
  unfold group_keys.
  assert (Hins : forall x keys, In x (insert_key x keys) /\
                                (In k keys -> In k (insert_key x keys))).
  { intros x keys. induction keys as [| k' rest [IH1 IH2]]; simpl.
    - auto.
    - destruct (String_as_OT.compare_spec x k') as [Heq | Hlt | Hgt]; simpl.
      + red in Heq. subst. auto.
      + auto.
      + intuition auto. }
  intros Hin Hk. induction labels as [| l rest IH]; simpl; [destruct Hin |].
  destruct Hin as [-> | Hin].
  - destruct (String.eqb k "") eqn:Hk'; [apply String.eqb_eq in Hk'; contradiction |].
    simpl. apply (proj1 (Hins k _)).
  - destruct (String.eqb l ""); simpl; [exact (IH Hin) |].
    apply (proj2 (Hins l _)). exact (IH Hin).
Qed.

(** The loader returns on every well-formed source. *)
Lemma data_total header records :
  well_formed (header :: records) = true ->
  exists d, data (header :: records) = Ok d.
Proof.
  unfold well_formed. intro Hwf.
  apply andb_prop in Hwf. destruct Hwf as [Hwf Hcells].
  apply andb_prop in Hwf. destruct Hwf as [Hwf Hlabels].
  apply andb_prop in Hwf. destruct Hwf as [_ Hlen].
  simpl in Hlabels. apply andb_prop in Hlabels. destruct Hlabels as [Hkey Hdrop].
  unfold data, read_csv.
  apply negb_true_iff in Hlen. rewrite Hlen. simpl.
  unfold drop. rewrite map_fst_columns_of.
  change (forallb (fun l => mem l header) dropped_labels) with
    (mem "Province/State" header && (mem "Lat" header && (mem "Long" header && true))).
  rewrite Hdrop. simpl.
  unfold groupby_sum.
  rewrite find_filter, find_column.
  2:{ intros c Hc. apply String.eqb_eq in Hc. rewrite Hc. reflexivity. }
  apply get_loc_mem in Hkey. destruct Hkey as [kp Hkp]. rewrite Hkp.
  unfold column_at at 1. rewrite others_are_date_columns.
  match goal with
  | |- context [traverse ?f (group_keys ?l)] =>
      destruct (traverse_total f (group_keys l)) as [summed Hsummed]
  end.
  - intros k _.
    match goal with
    | |- context [traverse ?f (map ?g ?l)] =>
        destruct (traverse_total f (map g l)) as [cells Hc]
    end.
    + intros c Hc. apply in_map_iff in Hc. destruct Hc as [p [<- Hp]].
      unfold column_at. simpl. rewrite members_of_records.
      unfold sum_cells.
      destruct (numbers_total (map (fun r => field r p)
                  (filter (fun r => String.eqb (field r kp) k) (cleaned records)))) as [zs Hzs].
      * rewrite forallb_forall. intros s Hs.
        apply in_map_iff in Hs. destruct Hs as [r [<- Hr]].
        apply filter_In in Hr. destruct Hr as [Hr _].
        rewrite forallb_forall in Hcells. specialize (Hcells r Hr).
        rewrite forallb_forall in Hcells. apply Hcells. exact Hp.
      * rewrite Hzs. simpl. eauto.
    + rewrite Hc. simpl. eauto.
  - rewrite Hsummed. simpl. eauto.
Qed.

Lemma date_labels_positions (header : list string) :
  map (field header) (date_positions header) = date_labels header.
Proof.
  unfold date_positions, date_labels.
  rewrite <- filter_map_swap. f_equal.
  unfold field. rewrite (map_nth_seq (fun c => c) header ""). apply map_id.
Qed.







(** C6, as the code has it.  Only a source without a header line makes
    the loader fail, and it fails in the CSV reader.  Every well-formed
    source is loaded without error, also when it has no record or no
    date column: the table then has no entity, or no row. *)
Theorem loader_failure_and_empty_tables :
  data [] = Raise EmptyDataError /\
  forall header records,
    well_formed (header :: records) = true ->
    exists d, data (header :: records) = Ok d /\
              length (rows d) = length (date_labels header) /\
              (records = [] -> columns d = []).
Proof.
  split; [reflexivity |].
  intros header records Hwf.
  destruct (data_total header records Hwf) as [d Hd].
  exists d. split; [exact Hd |].
  apply data_explicit in Hd. destruct Hd as [kp [_ ->]].
  split.
  - unfold loaded. simpl. rewrite length_map, <- date_labels_positions, length_map.
    reflexivity.
  - intros ->. reflexivity.
Qed.

End Loader.

(** ** The callback *)

Section CallbackFacts.

Context `{PandasLib}.

(** Running the callback: the module state comes back as it was, and
    the outcome is [query] on the two tables. *)
Lemma update_graphs_run (sel s e : option string) (m : Module) :
  update_graphs sel s e m
  = (m, if not_ sel || not_ s || not_ e
        then Ok (no_update, no_update, no_update, no_update)
        else (fs <- query (mod_data m) (mod_daily_cases m)
                      (str sel) (str s) (str e) ;;
              Ok (figures fs))%result).
Proof.
  unfold update_graphs.
  destruct (not_ sel || not_ s || not_ e); [reflexivity |].
  unfold query, cbind, lift, global_data, global_daily_cases, ret, bind.
  repeat match goal with
         | |- context [match ?r with Ok _ => _ | Raise _ => _ end] =>
             lazymatch r with
             | context [match _ with Ok _ => _ | Raise _ => _ end] => fail
             | _ => destruct r; cbv beta iota
             end
         end; reflexivity.
Qed.

Lemma in_window_empty (lo hi : Z) (t : Timestamp) :
  (hi < lo)%Z -> in_window lo hi t = false.
Proof.
  intro Hlt. destruct t as [z |]; simpl; [| reflexivity].
  destruct (Z.leb_spec lo z); simpl; [| reflexivity].
  apply Z.leb_gt. lia.
Qed.

Lemma loc_monotonic (f : DataFrame) (s e : string) (lo hi : Z) :
  cast_slice_bound s left = Some lo ->
  cast_slice_bound e right = Some hi ->
  is_monotonic_increasing (index f) = true ->
  loc f s e
  = Ok (mkFrame (columns f) (filter (fun r => in_window lo hi (fst r)) (rows f))).
Proof.
  intros Hlo Hhi Hmono. unfold loc. rewrite Hlo, Hhi, Hmono. reflexivity.
Qed.

Lemma loc_ok (f g : DataFrame) (s e : string) :
  loc f s e = Ok g ->
  exists lo hi,
    cast_slice_bound s left = Some lo /\
    cast_slice_bound e right = Some hi /\
    g = mkFrame (columns f) (filter (fun r => in_window lo hi (fst r)) (rows f)).
Proof.
  unfold loc.
  destruct (cast_slice_bound s left) as [lo |]; [| discriminate].
  destruct (cast_slice_bound e right) as [hi |]; [| discriminate].
  intro Hg. exists lo, hi. split; [reflexivity | split; [reflexivity |]].
  destruct (is_monotonic_increasing (index f)).
  - injection Hg as <-. reflexivity.
  - destruct (has_label lo (index f) && has_label hi (index f));
      [injection Hg as <-; reflexivity | discriminate].
Qed.

Lemma filter_none {A : Type} (P : A -> bool) (l : list A) :
  (forall a, In a l -> P a = false) -> filter P l = [].
Proof.
  induction l as [| a rest IH]; simpl; intro HP; [reflexivity |].
  rewrite (HP a (or_introl eq_refl)). apply IH. intros b Hb. apply HP. right. exact Hb.
Qed.

Lemma px_single_ok (k : chart) (f : DataFrame) (x : list Timestamp)
  (y t : string) :
  mem y (columns f) = true -> exists fig, px_column k f x y t = Ok fig.
Proof.
  intro Hy. apply get_loc_mem in Hy. destruct Hy as [p Hp].
  unfold px_column. rewrite Hp. eauto.
Qed.

Lemma px_single_unknown (k : chart) (f : DataFrame) (x : list Timestamp)
  (y t : string) :
  mem y (columns f) = false -> px_column k f x y t = Raise ValueError.
Proof.
  intro Hy. unfold px_column.
  destruct (get_loc y (columns f)) as [p |] eqn:Hp; [| reflexivity].
  assert (Hmem : mem y (columns f) = true) by (apply get_loc_mem; eauto).
  rewrite Hmem in Hy. discriminate.
Qed.

(** C10.  When any of the three inputs is [None] or the empty string,
    the callback returns the no-update sentinel for all four outputs;
    nothing is sliced or ranked, and the module state is as before. *)
Theorem missing_input_returns_no_update (sel s e : option string) (m : Module) :
  (sel = None \/ sel = Some "") \/ (s = None \/ s = Some "")
  \/ (e = None \/ e = Some "") ->
  update_graphs sel s e m = (m, Ok (no_update, no_update, no_update, no_update)).
Proof.
  intro Hmissing. unfold update_graphs.
  assert (Hguard : not_ sel || not_ s || not_ e = true).
  { destruct Hmissing as [[-> | ->] | [[-> | ->] | [-> | ->]]]; simpl;
      rewrite ?orb_true_r; reflexivity. }
  rewrite Hguard. reflexivity.
Qed.

(** C2, as the code has it.  When the three inputs are present, the two
    slices succeed and the entity is not a column of the cumulative
    table, the callback fails with the [ValueError] that the first
    plotting call raises for an unknown column. *)
Theorem unknown_entity_raises (country s e : string) (m : Module) (lo hi : Z) :
  country <> "" -> s <> "" -> e <> "" ->
  cast_slice_bound s left = Some lo ->
  cast_slice_bound e right = Some hi ->
  is_monotonic_increasing (index (mod_data m)) = true ->
  is_monotonic_increasing (index (mod_daily_cases m)) = true ->
  mem country (columns (mod_data m)) = false ->
  update_graphs (Some country) (Some s) (Some e) m = (m, Raise ValueError).
Proof.
  intros Hc Hs He Hlo Hhi Hmono Hmono' Hunknown.
  rewrite update_graphs_run. simpl.
  apply String.eqb_neq in Hc, Hs, He. rewrite Hc, Hs, He. simpl.
  unfold query.
  rewrite (loc_monotonic _ s e lo hi Hlo Hhi Hmono).
  rewrite (loc_monotonic _ s e lo hi Hlo Hhi Hmono'). simpl.
  rewrite px_single_unknown by exact Hunknown. reflexivity.
Qed.

(** C1, what the code does.  When the three inputs are present and no
    timestamp of the cumulative table lies between the cast bounds, the
    callback raises: it never returns four empty series.  On a sorted
    axis and for a known entity the exception is the [IndexError] of
    [iloc[-1]] on the empty slice. *)
Theorem empty_window_raises (country s e : string) (m : Module) (lo hi : Z) :
  country <> "" -> s <> "" -> e <> "" ->
  cast_slice_bound s left = Some lo ->
  cast_slice_bound e right = Some hi ->
  (forall t, In t (index (mod_data m)) -> in_window lo hi t = false) ->
  (exists err, update_graphs (Some country) (Some s) (Some e) m = (m, Raise err)) /\
  (is_monotonic_increasing (index (mod_data m)) = true ->
   is_monotonic_increasing (index (mod_daily_cases m)) = true ->
   mem country (columns (mod_data m)) = true ->
   mem country (columns (mod_daily_cases m)) = true ->
   update_graphs (Some country) (Some s) (Some e) m = (m, Raise IndexError)).
Proof.
  intros Hc Hs He Hlo Hhi Hempty.
  rewrite update_graphs_run. simpl.
  apply String.eqb_neq in Hc, Hs, He. rewrite Hc, Hs, He. simpl.
  assert (Hrows : filter (fun r => in_window lo hi (fst r)) (rows (mod_data m)) = []).
  { apply filter_none. intros r Hr. apply Hempty. apply in_map. exact Hr. }
  split.
  - unfold query.
    destruct (loc (mod_data m) s e) as [fd | err] eqn:Hfd; [| simpl; eauto].
    apply loc_ok in Hfd. destruct Hfd as [lo' [hi' [Hlo' [Hhi' ->]]]].
    rewrite Hlo in Hlo'. rewrite Hhi in Hhi'.
    injection Hlo' as <-. injection Hhi' as <-. rewrite Hrows.
    destruct (loc (mod_daily_cases m) s e) as [fc | err]; [| simpl; eauto].
    simpl.
    destruct (px_column line _ _ _ _) as [f1 | err]; [| simpl; eauto]. simpl.
    destruct (px_column bar _ _ _ _) as [f2 | err]; [| simpl; eauto]. simpl.
    eauto.
  - intros Hmono Hmono' Hknown Hknown'. unfold query.
    rewrite (loc_monotonic _ s e lo hi Hlo Hhi Hmono).
    rewrite (loc_monotonic _ s e lo hi Hlo Hhi Hmono'). cbn [bind].
    rewrite Hrows.
    match goal with
    | |- context [px_column line ?f ?x country ?t] =>
        destruct (px_single_ok line f x country t Hknown) as [f1 Hf1]
    end.
    rewrite Hf1. cbn [bind].
    match goal with
    | |- context [px_column bar ?f ?x country ?t] =>
        destruct (px_single_ok bar f x country t Hknown') as [f2 Hf2]
    end.
    rewrite Hf2. reflexivity.
Qed.

End CallbackFacts.

(** ** Ranking *)

Lemma StronglySorted_app {A : Type} (R : A -> A -> Prop) (l1 l2 : list A) :
  StronglySorted R l1 -> StronglySorted R l2 ->
  (forall a b, In a l1 -> In b l2 -> R a b) ->
  StronglySorted R (l1 ++ l2).
Proof.
  induction l1 as [| x rest IH]; simpl; intros H1 H2 Hcross; [exact H2 |].
  apply StronglySorted_inv in H1. destruct H1 as [Hrest Hx].
  constructor.
  - apply IH; [exact Hrest | exact H2 | intros a b Ha Hb; apply Hcross; auto].
  - apply Forall_app. split; [exact Hx |].
    apply Forall_forall. intros b Hb. apply Hcross; auto.
Qed.

Lemma StronglySorted_app_inv {A : Type} (R : A -> A -> Prop) (l1 l2 : list A) :
  StronglySorted R (l1 ++ l2) ->
  StronglySorted R l1 /\ StronglySorted R l2 /\
  (forall a b, In a l1 -> In b l2 -> R a b).
Proof.
  induction l1 as [| x rest IH]; simpl; intro Hs.
  - split; [constructor | split; [exact Hs | intros a b []]].
  - apply StronglySorted_inv in Hs. destruct Hs as [Hrest Hx].
    destruct (IH Hrest) as [H1 [H2 Hcross]].
    apply Forall_app in Hx. destruct Hx as [Hx1 Hx2].
    split; [constructor; assumption | split; [exact H2 |]].
    intros a b [<- | Ha] Hb.
    + rewrite Forall_forall in Hx2. apply Hx2. exact Hb.
    + apply Hcross; assumption.
Qed.

Lemma StronglySorted_rev {A : Type} (R : A -> A -> Prop) (l : list A) :
  StronglySorted R l -> StronglySorted (fun a b => R b a) (rev l).
Proof.
  induction l as [| x rest IH]; simpl; intro Hs; [constructor |].
  apply StronglySorted_inv in Hs. destruct Hs as [Hrest Hx].
  apply StronglySorted_app.
  - apply IH. exact Hrest.
  - repeat constructor.
  - intros a b Ha [<- | []]. apply in_rev in Ha.
    rewrite Forall_forall in Hx. apply Hx. exact Ha.
Qed.

Lemma StronglySorted_map {A B : Type} (R : B -> B -> Prop) (g : A -> B) (l : list A) :
  StronglySorted R (map g l) -> StronglySorted (fun a b => R (g a) (g b)) l.
Proof.
  induction l as [| x rest IH]; simpl; intro Hs; [constructor |].
  apply StronglySorted_inv in Hs. destruct Hs as [Hrest Hx].
  constructor; [apply IH; exact Hrest |].
  apply Forall_forall. intros b Hb.
  rewrite Forall_forall in Hx. apply Hx. apply in_map. exact Hb.
Qed.

Lemma ascending_sorted (vs : list Z) :
  ascending vs = true -> StronglySorted Z.le vs.
Proof.
  intro Hasc. apply Sorted_StronglySorted; [exact Z.le_trans |].
  induction vs as [| v rest IH]; [constructor |].
  destruct rest as [| v' rest'].
  - repeat constructor.
  - simpl in Hasc. apply andb_prop in Hasc. destruct Hasc as [Hle Hrest].
    constructor; [apply IH; exact Hrest |].
    constructor. apply Z.leb_le. exact Hle.
Qed.

(** An argsort that meets the contract lists a permutation of the
    positions. *)
Lemma sorts_permutation (vals : list Z) (order : list nat) :
  sorts vals order = true -> Permutation (seq 0 (length vals)) order.
Proof.
  unfold sorts. intro Hs.
  apply andb_prop in Hs. destruct Hs as [Hs _].
  apply andb_prop in Hs. destruct Hs as [Hlen Hall].
  apply Nat.eqb_eq in Hlen.
  apply NoDup_Permutation_bis.
  - apply seq_NoDup.
  - rewrite length_seq. lia.
  - intros i Hi. rewrite forallb_forall in Hall. specialize (Hall i Hi).
    apply existsb_exists in Hall. destruct Hall as [j [Hj Hij]].
    apply Nat.eqb_eq in Hij. subst j. exact Hj.
Qed.

Lemma sorts_ascending (vals : list Z) (order : list nat) :
  sorts vals order = true ->
  StronglySorted Z.le (map (fun j => nth j vals 0%Z) order).
Proof.
  unfold sorts. intro Hs. apply andb_prop in Hs. destruct Hs as [_ Hasc].
  apply ascending_sorted. exact Hasc.
Qed.

Lemma nth_seq_id {A : Type} (l : list A) (d : A) :
  map (fun i => nth i l d) (seq 0 (length l)) = l.
Proof. rewrite (map_nth_seq (fun a => a) l d). apply map_id. Qed.

Lemma series_positions (s : Series) : map (item s) (seq 0 (length s)) = s.
Proof. unfold item. apply nth_seq_id. Qed.

Section Ranking.

Context `{PandasLib}.

Lemma length_reversed_values (s : Series) :
  length (reversed_values s) = length (rev (non_nan_positions s)).
Proof. unfold reversed_values. apply length_map. Qed.

(** Sorting rearranges the series: nothing is lost or invented. *)
Lemma sort_values_permutation (s : Series) :
  sorts (reversed_values s) (argsort (reversed_values s)) = true ->
  Permutation s (sort_values_descending s).
Proof.
  intro Hsorts. apply sorts_permutation in Hsorts.
  rewrite length_reversed_values in Hsorts.
  unfold sort_values_descending.
  rewrite <- (series_positions s) at 1.
  apply Permutation_map.
  transitivity (non_nan_positions s ++ nan_positions s).
  - unfold non_nan_positions, nan_positions.
    generalize (seq 0 (length s)). intro l.
    induction l as [| i rest IH]; simpl; [constructor |].
    destruct (notna (snd (item s i))); simpl.
    + constructor. exact IH.
    + apply Permutation_cons_app. exact IH.
  - apply Permutation_app_tail.
    apply Permutation_trans with (rev (non_nan_positions s));
      [apply Permutation_rev |].
    eapply Permutation_trans; [| apply Permutation_rev].
    pattern (rev (non_nan_positions s)) at 1.
    rewrite <- (nth_seq_id (rev (non_nan_positions s)) 0%nat).
    apply Permutation_map. exact Hsorts.
Qed.

Lemma no_nan_positions (s : Series) :
  forallb (fun x => notna (snd x)) s = true ->
  non_nan_positions s = seq 0 (length s) /\ nan_positions s = [].
Proof.
  intro Hall. rewrite forallb_forall in Hall.
  assert (Hitem : forall i, In i (seq 0 (length s)) -> notna (snd (item s i)) = true).
  { intros i Hi. apply in_seq in Hi. apply Hall. unfold item. apply nth_In. lia. }
  unfold non_nan_positions, nan_positions. split.
  - apply forallb_filter_id. apply forallb_forall. exact Hitem.
  - apply filter_none. intros i Hi. rewrite (Hitem i Hi). reflexivity.
Qed.

(** On a series without NaN, the sorted series is in descending order of
    value. *)
Lemma sort_values_descends (s : Series) :
  forallb (fun x => notna (snd x)) s = true ->
  sorts (reversed_values s) (argsort (reversed_values s)) = true ->
  StronglySorted (fun a b => (value_of b <= value_of a)%Z)
                 (sort_values_descending s).
Proof.
  intros Hall Hsorts.
  pose proof (sorts_permutation _ _ Hsorts) as Hperm.
  pose proof (sorts_ascending _ _ Hsorts) as Hasc.
  destruct (no_nan_positions s Hall) as [Hnn Hnan].
  unfold sort_values_descending. rewrite Hnan, app_nil_r.
  apply StronglySorted_map with (R := fun x y => (y <= x)%Z) (g := value_of).
  rewrite map_map, map_rev, map_map.
  apply (StronglySorted_rev Z.le).
  erewrite map_ext_in; [exact Hasc |].
  intros j Hj. simpl.
  assert (Hlt : (j < length (rev (non_nan_positions s)))%nat).
  { apply (Permutation_in _ (Permutation_sym Hperm)) in Hj.
    apply in_seq in Hj. rewrite length_reversed_values in Hj. lia. }
  unfold reversed_values, value_of.
  rewrite (nth_indep _ 0%Z (number (snd (item s 0%nat)))) by (rewrite length_map; exact Hlt).
  rewrite (map_nth (fun i => number (snd (item s i)))). reflexivity.
Qed.

Lemma index_diff_rows {L : Type} (rs : list (L * list (option Z))) :
  forall prev, map fst (diff_rows prev rs) = map fst rs.
Proof.
  induction rs as [| [l r] rest IH]; intro prev; simpl; [reflexivity |].
  rewrite IH. reflexivity.
Qed.

Lemma index_daily_cases (d : DataFrame) : index (daily_cases d) = index d.
Proof.
  unfold index, daily_cases, fillna, diff. simpl. rewrite map_map. simpl.
  destruct (rows d) as [| [l r] rest]; simpl; [reflexivity |].
  rewrite index_diff_rows. reflexivity.
Qed.

Lemma getitem_ok (f : DataFrame) (labels : list string) :
  (forall l, In l labels -> mem l (columns f) = true) ->
  exists g, getitem f labels = Ok g /\ columns g = labels.
Proof.
  intro Hknown. unfold getitem.
  match goal with
  | |- context [traverse ?h labels] =>
      destruct (traverse_total h labels) as [ps Hps]
  end.
  - intros l Hl. apply Hknown, get_loc_mem in Hl. destruct Hl as [p Hp].
    rewrite Hp. eauto.
  - rewrite Hps. simpl. eauto.
Qed.

Lemma px_names (k : chart) (f : DataFrame) (x : list Timestamp)
  (ys : list string) (t : string) :
  (forall y, In y ys -> mem y (columns f) = true) ->
  exists fig, px k f x ys t = Ok fig /\ map name (traces fig) = ys.
Proof.
  intro Hknown. unfold px.
  assert (Hts : exists ts, traverse (trace_of f x) ys = Ok ts /\ map name ts = ys).
  { induction ys as [| y rest IH]; simpl; [eauto |].
    destruct (IH (fun y' Hy' => Hknown y' (or_intror Hy'))) as [ts [Hts Hnames]].
    pose proof (Hknown y (or_introl eq_refl)) as Hy.
    apply get_loc_mem in Hy. destruct Hy as [p Hp].
    unfold trace_of at 1. rewrite Hp. simpl. rewrite Hts. simpl.
    eexists. split; [reflexivity |]. simpl. rewrite Hnames. reflexivity. }
  destruct Hts as [ts [Hts Hnames]]. rewrite Hts. simpl. eauto.
Qed.

Lemma iloc_last_of_window (axis : list string) (W : Timestamp -> bool)
  (before after : list (Timestamp * list (option Z)))
  (t : Timestamp) (r : list (option Z)) :
  W t = true ->
  (forall x, In x after -> W (fst x) = false) ->
  iloc_last (mkFrame axis (filter (fun x => W (fst x)) (before ++ (t, r) :: after)))
  = Ok (row_series axis r).
Proof.
  intros Ht Hafter. unfold iloc_last. simpl.
  rewrite filter_app. simpl. rewrite Ht.
  rewrite (filter_none (fun x => W (fst x)) after Hafter).
  rewrite rev_app_distr. reflexivity.
Qed.

Lemma row_series_labels (axis : list string) (r : list (option Z)) (x : string * option Z) :
  In x (row_series axis r) -> mem (fst x) axis = true.
Proof.
  unfold row_series. intro Hx. apply in_map_iff in Hx.
  destruct Hx as [p [<- Hp]]. apply in_seq in Hp. simpl.
  apply mem_In. unfold field. apply nth_In. lia.
Qed.

(** The outcome of the query on a window whose last row is [r]: four
    figures, the two top-5 figures keyed by the first five labels of the
    sorted row. *)
Lemma query_ranks_last_row (d : DataFrame) (country s e : string) (lo hi : Z)
  (before after : list (Timestamp * list (option Z)))
  (t : Timestamp) (r : list (option Z)) :
  cast_slice_bound s left = Some lo ->
  cast_slice_bound e right = Some hi ->
  is_monotonic_increasing (index d) = true ->
  mem country (columns d) = true ->
  rows d = before ++ (t, r) :: after ->
  in_window lo hi t = true ->
  (forall x, In x after -> in_window lo hi (fst x) = false) ->
  sorts (reversed_values (row_series (columns d) r))
        (argsort (reversed_values (row_series (columns d) r))) = true ->
  exists f1 f2 f3 f4,
    query d (daily_cases d) country s e = Ok (f1, f2, f3, f4) /\
    map name (traces f3)
    = map fst (head 5 (sort_values_descending (row_series (columns d) r))) /\
    map name (traces f4) = map name (traces f3).
Proof.
  intros Hlo Hhi Hmono Hknown Hrows Ht Hafter Hsorts.
  assert (Hmono' : is_monotonic_increasing (index (daily_cases d)) = true)
    by (rewrite index_daily_cases; exact Hmono).
  unfold query.
  rewrite (loc_monotonic d s e lo hi Hlo Hhi Hmono).
  rewrite (loc_monotonic (daily_cases d) s e lo hi Hlo Hhi Hmono').
  cbn [bind].
  match goal with
  | |- context [px_column line ?f ?x country ?ttl] =>
      destruct (px_single_ok line f x country ttl Hknown) as [f1 Hf1]
  end.
  rewrite Hf1. cbn [bind].
  match goal with
  | |- context [px_column bar ?f ?x country ?ttl] =>
      destruct (px_single_ok bar f x country ttl Hknown) as [f2 Hf2]
  end.
  rewrite Hf2. cbn [bind].
  assert (Hlast : iloc_last (mkFrame (columns d)
                     (filter (fun x => in_window lo hi (fst x)) (rows d)))
                  = Ok (row_series (columns d) r)).
  { rewrite Hrows. apply iloc_last_of_window; assumption. }
  rewrite Hlast.
  cbn [bind].
  set (top := map fst (head 5 (sort_values_descending (row_series (columns d) r)))).
  assert (Htop : forall l, In l top -> mem l (columns d) = true).
  { intros l Hl. unfold top in Hl. apply in_map_iff in Hl.
    destruct Hl as [x [<- Hx]]. unfold head in Hx.
    assert (Hx' : In x (sort_values_descending (row_series (columns d) r))).
    { rewrite <- (firstn_skipn 5). apply in_or_app. left. exact Hx. }
    clear Hx. rename Hx' into Hx.
    apply (Permutation_in _ (Permutation_sym (sort_values_permutation _ Hsorts))) in Hx.
    apply row_series_labels in Hx. exact Hx. }
  match goal with
  | |- context [getitem ?f top] =>
      destruct (getitem_ok f top Htop) as [td [Htd Hcols]]
  end.
  rewrite Htd. cbn [bind].
  assert (Hself : forall g : DataFrame, columns g = top ->
                    forall y, In y top -> mem y (columns g) = true).
  { intros g -> y Hy. apply mem_In. exact Hy. }
  match goal with
  | |- context [px line td ?x top ?ttl] =>
      destruct (px_names line td x top ttl (Hself td Hcols)) as [f3 [Hf3 Hn3]]
  end.
  rewrite Hf3. cbn [bind].
  match goal with
  | |- context [getitem ?f top] =>
      destruct (getitem_ok f top Htop) as [tc [Htc Hcols']]
  end.
  rewrite Htc. cbn [bind].
  match goal with
  | |- context [px line tc ?x top ?ttl] =>
      destruct (px_names line tc x top ttl (Hself tc Hcols')) as [f4 [Hf4 Hn4]]
  end.
  rewrite Hf4. cbn [bind].
  exists f1, f2, f3, f4. split; [reflexivity |].
  split; [exact Hn3 | rewrite Hn3; exact Hn4].
Qed.


(** C4, as the code has it.  The top-5 figure shows the entities with
    the highest values in the last row of the window, at most five of
    them, in descending order of value: the row splits into the chosen
    entities and the rest, and no entity of the rest has a higher value
    than a chosen one.  The order among entities of equal value is the
    one the library's default argsort yields. *)
Theorem top5_are_the_highest_descending (d : DataFrame) (country s e : string)
  (lo hi : Z) (before after : list (Timestamp * list (option Z)))
  (t : Timestamp) (r : list (option Z)) :
  country <> "" -> s <> "" -> e <> "" ->
  cast_slice_bound s left = Some lo ->
  cast_slice_bound e right = Some hi ->
  is_monotonic_increasing (index d) = true ->
  mem country (columns d) = true ->
  rows d = before ++ (t, r) :: after ->
  in_window lo hi t = true ->
  (forall x, In x after -> in_window lo hi (fst x) = false) ->
  forallb (fun x => notna (snd x)) (row_series (columns d) r) = true ->
  sorts (reversed_values (row_series (columns d) r))
        (argsort (reversed_values (row_series (columns d) r))) = true ->
  exists f1 f2 f3 f4 chosen rest,
    update_graphs (Some country) (Some s) (Some e) (mkModule d (daily_cases d))
    = (mkModule d (daily_cases d), Ok (figure f1, figure f2, figure f3, figure f4)) /\
    map name (traces f3) = map fst chosen /\
    Permutation (row_series (columns d) r) (chosen ++ rest) /\
    length chosen = Nat.min 5 (length (columns d)) /\
    StronglySorted (fun a b => (value_of b <= value_of a)%Z) chosen /\
    (forall a b, In a chosen -> In b rest -> (value_of b <= value_of a)%Z).
Proof.
  intros Hc Hs He Hlo Hhi Hmono Hknown Hrows Ht Hafter Hnotna Hsorts.
  destruct (query_ranks_last_row d country s e lo hi before after t r
              Hlo Hhi Hmono Hknown Hrows Ht Hafter Hsorts)
    as [f1 [f2 [f3 [f4 [Hq [Hn3 _]]]]]].
  pose proof (sort_values_permutation _ Hsorts) as Hperm.
  pose proof (sort_values_descends _ Hnotna Hsorts) as Hdesc.
  set (sorted := sort_values_descending (row_series (columns d) r)) in *.
  exists f1, f2, f3, f4, (firstn 5 sorted), (skipn 5 sorted).
  rewrite <- (firstn_skipn 5 sorted) in Hdesc.
  apply StronglySorted_app_inv in Hdesc. destruct Hdesc as [Hchosen [_ Hcross]].
  repeat split.
  - rewrite update_graphs_run. simpl.
    apply String.eqb_neq in Hc, Hs, He. rewrite Hc, Hs, He. simpl.
    rewrite Hq. reflexivity.
  - exact Hn3.
  - rewrite firstn_skipn. exact Hperm.
  - rewrite length_firstn, <- (Permutation_length Hperm).
    unfold row_series. rewrite length_map, length_seq. reflexivity.
  - exact Hchosen.
  - exact Hcross.
Qed.

End Ranking.

(** ** The reference arithmetic is exact up to the limit *)

Lemma wrap64_small (z : Z) :
  (- 2 ^ 63 <= z < 2 ^ 63)%Z -> Reference.wrap64 z = z.
Proof.
  intro Hz. unfold Reference.wrap64. rewrite Z.mod_small by lia. lia.
Qed.

Lemma round53_small (z : Z) :
  (Z.abs z <= 2 ^ 53)%Z -> Reference.round53 z = z.
Proof.
  intro Hz. unfold Reference.round53. cbv zeta.
  destruct (Z.log2 (Z.abs z) - 52 <=? 0)%Z eqn:Hs; [reflexivity |].
  apply Z.leb_gt in Hs.
  assert (Hpos : (0 < Z.abs z)%Z).
  { destruct (Z.abs z) eqn:Ha; simpl in Hs; lia. }
  assert (Hlow : (2 ^ 53 <= Z.abs z)%Z).
  { apply Z.log2_le_pow2; lia. }
  assert (Hz' : z = (2 ^ 53)%Z \/ z = (- 2 ^ 53)%Z) by lia.
  destruct Hz' as [-> | ->]; vm_compute; reflexivity.
Qed.

Lemma int64_sum_exact (zs : list Z) :
  forall sumx,
    (Z.abs sumx + magnitude zs <= exact_limit)%Z ->
    Reference.int64_sum sumx zs = (sumx + fold_right Z.add 0 zs)%Z.
Proof.
  unfold magnitude, exact_limit.
  induction zs as [| z rest IH]; simpl; intros sumx Hb; [lia |].
  pose proof (magnitude_nonneg rest) as Hn. unfold magnitude in Hn.
  rewrite wrap64_small by lia. rewrite IH by lia. lia.
Qed.

Lemma float64_sum_exact (zs : list Z) :
  forall sumx,
    (Z.abs sumx + magnitude zs <= exact_limit)%Z ->
    Reference.float64_sum sumx 0 zs = (sumx + fold_right Z.add 0 zs)%Z.
Proof.
  unfold magnitude, exact_limit.
  induction zs as [| z rest IH]; simpl; intros sumx Hb; [lia |].
  pose proof (magnitude_nonneg rest) as Hn. unfold magnitude in Hn.
  rewrite (round53_small z) by lia.
  rewrite Z.sub_0_r.
  rewrite (round53_small z) by lia.
  rewrite (round53_small (sumx + z)) by lia.
  replace (sumx + z - sumx)%Z with z by lia.
  rewrite (round53_small z) by lia.
  rewrite Z.sub_diag.
  change (Reference.round53 0) with 0%Z.
  rewrite IH by lia. lia.
Qed.

Lemma reference_arithmetic_exact : exact_arithmetic (H := Reference.library).
Proof.
  unfold exact_arithmetic. cbn [column_sum upcast subtract Reference.library].
  split; [| split].
  - intros float zs Hm. destruct float.
    + rewrite float64_sum_exact by (simpl; lia). reflexivity.
    + rewrite int64_sum_exact by (simpl; lia). reflexivity.
  - intros z Hz. apply round53_small. exact Hz.
  - intros a b _ _ Hd. unfold exact_limit in Hd.
    rewrite wrap64_small by lia. apply round53_small. exact Hd.
Qed.

(** * The program on the sample inputs *)

Import Reference.


Lemma sample_provinces_add_up : value_at Samples.table 0 "China" = Some 12%Z.
Proof. reflexivity. Qed.

Lemma ranking_source_loads : data Samples.ranking_source = Ok Samples.ranking_table.
Proof. vm_compute. reflexivity. Qed.

(** A correction downwards in the source shows as a negative delta. *)
Lemma sample_negative_delta :
  value_at (daily_cases Samples.table) 3 "China" = Some (-1)%Z.
Proof. reflexivity. Qed.







(** Line 22 drops rows by their cells, not by their label: the row of a
    header that is no date stays in the table, labelled NaT. *)
Lemma unparsed_header_row_is_kept :
  data Samples.annotated
  = Ok (mkFrame ["France"]
          [(Samples.midnight 2020 1 22, [Some 3%Z]); (None, [Some 67%Z])]).
Proof. vm_compute. reflexivity. Qed.

(** C6 at a source without records. *)
Lemma loader_failure_and_empty_tables_witness :
  exists d, data Samples.no_records = Ok d /\
            length (rows d) = 1%nat /\ columns d = [].
Proof.
  destruct (proj2 loader_failure_and_empty_tables
              ["Province/State"; "Country/Region"; "Lat"; "Long"; "1/22/20"] [])
    as [d [Hd [Hrows Hcols]]].
  - vm_compute. reflexivity.
  - exists d. split; [exact Hd |]. split; [exact Hrows | exact (Hcols eq_refl)].
Defined.

(** C6 fails as stated: a source without any date column, and a source
    without any record, are loaded into empty tables; nothing is
    raised. *)
Lemma empty_sources_load_without_error :
  data Samples.no_dates = Ok (mkFrame ["China"] []) /\
  data Samples.no_records = Ok (mkFrame [] [(Samples.midnight 2020 1 22, [])]).
Proof. split; vm_compute; reflexivity. Qed.

(** C10 at the sample module: no entity selected. *)
Lemma missing_input_returns_no_update_witness :
  update_graphs None (Some "2020-01-22") (Some "2020-01-25") Samples.module
  = (Samples.module, Ok (no_update, no_update, no_update, no_update)).
Proof.
  apply missing_input_returns_no_update. left. left. reflexivity.
Defined.

(** C2 fails as stated: the empty string names no entity, and the
    callback answers it with no-update, not with an exception. *)
Lemma empty_entity_is_not_an_error :
  mem "" (columns (mod_data Samples.module)) = false /\
  update_graphs (Some "") (Some "2020-01-22") (Some "2020-01-25") Samples.module
  = (Samples.module, Ok (no_update, no_update, no_update, no_update)).
Proof. split; reflexivity. Qed.

(** C2 at the sample module: Spain is no column. *)
Lemma unknown_entity_raises_witness :
  update_graphs (Some "Spain") (Some "2020-01-22") (Some "2020-01-25")
    Samples.module
  = (Samples.module, Raise ValueError).
Proof.
  apply (unknown_entity_raises "Spain" "2020-01-22" "2020-01-25" Samples.module
           1579651200000000000 1579996799999999999);
    try discriminate; vm_compute; reflexivity.
Defined.

(** C1 at the sample module: a window whose start lies after its end. *)
Lemma empty_window_raises_witness :
  update_graphs (Some "France") (Some "2020-01-25") (Some "2020-01-23")
    Samples.module
  = (Samples.module, Raise IndexError).
Proof.
  apply (proj2 (empty_window_raises "France" "2020-01-25" "2020-01-23"
                  Samples.module 1579910400000000000 1579823999999999999
                  ltac:(discriminate) ltac:(discriminate) ltac:(discriminate)
                  ltac:(vm_compute; reflexivity) ltac:(vm_compute; reflexivity)
                  ltac:(intros t [<- | [<- | [<- | [<- | []]]]]; reflexivity)));
    vm_compute; reflexivity.
Defined.

(** The same on a window that lies after the whole table. *)
Lemma window_after_table_raises :
  snd (update_graphs (Some "France") (Some "2021-01-01") (Some "2021-01-31")
         Samples.module)
  = Raise IndexError.
Proof. vm_compute. reflexivity. Qed.



(** The ranking follows the window, not the table: on the first two days
    China leads France 17 to 0; on the last day alone both are shown
    with the values of that day. *)
Lemma ranking_of_single_day :
  top5_shown (snd (update_graphs (Some "France") (Some "2020-01-22")
                     (Some "2020-01-22") Samples.module))
  = ["China"; "France"].
Proof. vm_compute. reflexivity. Qed.

(** C4 at the ranking table: the five highest, in descending order. *)
Lemma top5_are_the_highest_descending_witness :
  exists f1 f2 f3 f4 chosen rest,
    update_graphs (Some "A") (Some "2020-01-22") (Some "2020-01-23")
      Samples.ranking_module
    = (Samples.ranking_module,
       Ok (figure f1, figure f2, figure f3, figure f4)) /\
    map name (traces f3) = map fst chosen /\
    Permutation (row_series (columns Samples.ranking_table)
                            Samples.ranking_last_row) (chosen ++ rest) /\
    length chosen = 5%nat /\
    StronglySorted (fun a b => (value_of b <= value_of a)%Z) chosen /\
    (forall a b, In a chosen -> In b rest -> (value_of b <= value_of a)%Z).
Proof.
  exact (top5_are_the_highest_descending Samples.ranking_table
           "A" "2020-01-22" "2020-01-23"
           1579651200000000000 1579823999999999999
           [(Samples.midnight 2020 1 22, repeat (Some 0%Z) 18)] []
           (Samples.midnight 2020 1 23) Samples.ranking_last_row
           ltac:(discriminate) ltac:(discriminate) ltac:(discriminate)
           ltac:(vm_compute; reflexivity) ltac:(vm_compute; reflexivity)
           ltac:(vm_compute; reflexivity) ltac:(vm_compute; reflexivity)
           ltac:(vm_compute; reflexivity) ltac:(vm_compute; reflexivity)
           ltac:(intros x [])
           ltac:(vm_compute; reflexivity) ltac:(vm_compute; reflexivity)).
Defined.

(** C4 fails as stated.  B and C are tied at 90 on the last day of the
    window and B comes first in the table, yet with numpy's quicksort
    the top-5 figure shows C before B. *)
Lemma tie_is_not_broken_by_table_order :
  columns Samples.ranking_table
  = ["A"; "B"; "C"; "D"; "E"; "F"; "G"; "H"; "I"; "J"; "K"; "L"; "M";
     "N"; "O"; "P"; "Q"; "R"] /\
  value_at Samples.ranking_table 1 "B" = Some 90%Z /\
  value_at Samples.ranking_table 1 "C" = Some 90%Z /\
  top5_shown (snd (update_graphs (Some "A") (Some "2020-01-22")
                     (Some "2020-01-23") Samples.ranking_module))
  = ["A"; "C"; "B"; "D"; "E"].
Proof. repeat split; vm_compute; reflexivity. Qed.

(** The six entities of the specification's example on their own are
    sorted by insertion, and B stays before C. *)
Lemma example_row_top5 :
  map fst (head 5 (sort_values_descending Samples.example_row))
  = ["A"; "B"; "C"; "D"; "E"].
Proof. vm_compute. reflexivity. Qed.

(** * Further properties of the loader *)

Lemma sorted_lists_equal (l1 : list string) :
  forall l2,
    StronglySorted String_as_OT.lt l1 -> StronglySorted String_as_OT.lt l2 ->
    (forall x, In x l1 <-> In x l2) -> l1 = l2.
Proof.
  assert (Hirr : forall x, ~ String_as_OT.lt x x)
    by exact (@RelationClasses.StrictOrder_Irreflexive _ _ String_as_OT.lt_strorder).
  assert (Htr : forall x y z, String_as_OT.lt x y -> String_as_OT.lt y z ->
                              String_as_OT.lt x z)
    by exact (@RelationClasses.StrictOrder_Transitive _ _ String_as_OT.lt_strorder).
  induction l1 as [| a1 r1 IH]; intros l2 H1 H2 Hsame.
  - destruct l2 as [| a2 r2]; [reflexivity |].
    destruct (proj2 (Hsame a2) (or_introl eq_refl)).
  - destruct l2 as [| a2 r2];
      [destruct (proj1 (Hsame a1) (or_introl eq_refl)) |].
    apply StronglySorted_inv in H1. destruct H1 as [Hr1 Ha1].
    apply StronglySorted_inv in H2. destruct H2 as [Hr2 Ha2].
    rewrite Forall_forall in Ha1, Ha2.
    assert (Heq : a1 = a2).
    { destruct (proj1 (Hsame a1) (or_introl eq_refl)) as [Heq | Hin1];
        [symmetry; exact Heq |].
      destruct (proj2 (Hsame a2) (or_introl eq_refl)) as [Heq | Hin2];
        [exact Heq |].
      exfalso. apply (Hirr a1). apply (Htr a1 a2 a1); auto. }
    subst a2. f_equal. apply IH; [exact Hr1 | exact Hr2 |].
    intro x. split; intro Hx.
    + destruct (proj1 (Hsame x) (or_intror Hx)) as [Heq | Hin]; [| exact Hin].
      subst x. exfalso. apply (Hirr a1). apply Ha1. exact Hx.
    + destruct (proj2 (Hsame x) (or_intror Hx)) as [Heq | Hin]; [| exact Hin].
      subst x. exfalso. apply (Hirr a1). apply Ha2. exact Hx.
Qed.

(** The group keys depend only on which non-blank labels occur. *)
Lemma group_keys_ext (labels labels' : list string) :
  (forall x, x <> "" -> (In x labels <-> In x labels')) ->
  group_keys labels = group_keys labels'.
Proof.
  intro Hsame. apply sorted_lists_equal; try apply group_keys_sorted.
  intro x. split; intro Hx; apply group_keys_In in Hx; destruct Hx as [Hx Hne];
    (apply In_group_keys; [apply (Hsame x Hne); exact Hx | exact Hne]).
Qed.

Lemma fold_right_add_permutation (l l' : list Z) :
  Permutation l l' -> fold_right Z.add 0%Z l = fold_right Z.add 0%Z l'.
Proof.
  induction 1; simpl; lia.
Qed.

Lemma filter_permutation {A : Type} (P : A -> bool) (l l' : list A) :
  Permutation l l' -> Permutation (filter P l) (filter P l').
Proof.
  induction 1; simpl.
  - constructor.
  - destruct (P x); [constructor |]; assumption.
  - destruct (P x), (P y); try constructor; reflexivity.
  - etransitivity; eassumption.
Qed.

Lemma total_permutation (kp p : nat) (e : string) (records records' : list (list string)) :
  Permutation records records' -> total kp p e records = total kp p e records'.
Proof.
  intro Hperm. unfold total. apply fold_right_add_permutation.
  apply Permutation_map. apply filter_permutation. exact Hperm.
Qed.



Lemma well_formed_permutation header records records' :
  Permutation records records' ->
  well_formed (header :: records) = true ->
  well_formed (header :: records') = true.
Proof.
  intros Hperm Hwf. unfold well_formed in *.
  apply andb_prop in Hwf. destruct Hwf as [Hwf Hcells].
  apply andb_prop in Hwf. destruct Hwf as [Hwf Hlabels].
  apply andb_prop in Hwf. destruct Hwf as [Hdistinct Hlen].
  rewrite !andb_true_iff. repeat split; [exact Hdistinct | | exact Hlabels |].
  - apply negb_true_iff in Hlen. apply negb_true_iff.
    apply not_true_is_false. intro Hex. apply existsb_exists in Hex.
    destruct Hex as [r [Hr Hlong]].
    apply (Permutation_in _ (Permutation_sym Hperm)) in Hr.
    assert (Hex : existsb (fun r => (length header <? length r)%nat) records = true)
      by (apply existsb_exists; eauto).
    rewrite Hex in Hlen. discriminate.
  - rewrite forallb_forall in Hcells. apply forallb_forall. intros r Hr.
    apply Hcells. unfold cleaned in *.
    apply (Permutation_in _ (Permutation_sym (Permutation_map (map na_filter) Hperm))).
    exact Hr.
Qed.




Lemma mass_permutation (p : nat) (records records' : list (list string)) :
  Permutation records records' -> mass p records = mass p records'.
Proof.
  intro Hperm. unfold mass, magnitude. apply fold_right_add_permutation.
  do 2 apply Permutation_map. exact Hperm.
Qed.


Section LoaderMore.

Context `{PandasLib}.

(** X1.  Where the entity column is text, the columns of the loaded
    table are the entity labels of the source, each once, in ascending
    order: a name is a column exactly when it is the non-missing label
    of some record. *)
Theorem loaded_columns_are_the_entities header records kp d :
  get_loc key_label header = Some kp ->
  text_entities kp records = true ->
  data (header :: records) = Ok d ->
  StronglySorted String_as_OT.lt (columns d) /\
  NoDup (columns d) /\
  forall e, In e (columns d) <->
            (e <> "" /\ exists r, In r (cleaned records) /\ field r kp = e).
Proof.
  intros Hkp0 _ Hd. apply data_explicit in Hd. destruct Hd as [kp' [Hkp ->]].
  rewrite Hkp0 in Hkp. injection Hkp as <-.
  unfold loaded. cbn [columns].
  pose proof (group_keys_sorted (map (fun r => field r kp) (cleaned records))) as Hs.
  split; [exact Hs |]. split; [apply strictly_sorted_NoDup; exact Hs |].
  intro e. split.
  - intro He. apply group_keys_In in He. destruct He as [He Hne].
    split; [exact Hne |]. apply in_map_iff in He.
    destruct He as [r [Hr Hin]]. eauto.
  - intros [Hne [r [Hin Hr]]]. apply In_group_keys; [| exact Hne].
    apply in_map_iff. eauto.
Qed.


(** X3.  A source whose header lacks one of the three columns to drop,
    or the entity column, is not loaded: the loader raises [KeyError]
    (no record being longer than the header). *)
Theorem loader_rejects_missing_label_column header records :
  existsb (fun r => (length header <? length r)%nat) records = false ->
  forallb (fun l => mem l header) (key_label :: dropped_labels) = false ->
  data (header :: records) = Raise KeyError.
Proof.
  intros Hlong Hlabels. unfold data, read_csv. rewrite Hlong. cbn [bind].
  unfold drop. rewrite map_fst_columns_of.
  destruct (forallb (fun l => mem l header) dropped_labels) eqn:Hdrop;
    [| reflexivity].
  cbn [bind]. unfold groupby_sum.
  rewrite find_filter, find_column.
  2:{ intros c Hc. apply String.eqb_eq in Hc. rewrite Hc. reflexivity. }
  destruct (get_loc key_label header) as [kp |] eqn:Hkp; [| reflexivity].
  assert (Hkey : mem key_label header = true) by (apply get_loc_mem; eauto).
  cbn [forallb] in Hlabels. rewrite Hkey, Hdrop in Hlabels. discriminate.
Qed.

(** X4.  The order of the records does not matter: where the arithmetic
    is exact and no date column holds more than [2^53] in all, a
    well-formed source and the same source with its records rearranged
    load into the same table. *)
Theorem loader_ignores_record_order header records records' :
  well_formed (header :: records) = true ->
  exact_arithmetic ->
  within_limit header records = true ->
  Permutation records records' ->
  data (header :: records') = data (header :: records).
Proof.
  intros Hwf Hexact Hlim Hperm.
  pose proof (well_formed_permutation header records records' Hperm Hwf) as Hwf'.
  destruct (data_total header records Hwf) as [d Hd].
  destruct (data_total header records' Hwf') as [d' Hd'].
  rewrite Hd, Hd'. f_equal.
  apply data_explicit in Hd. destruct Hd as [kp [Hkp ->]].
  apply data_explicit in Hd'. destruct Hd' as [kp' [Hkp' ->]].
  rewrite Hkp in Hkp'. injection Hkp' as <-.
  assert (Hclean : Permutation (cleaned records) (cleaned records'))
    by (apply Permutation_map; exact Hperm).
  assert (Hkeys : group_keys (map (fun r => field r kp) (cleaned records'))
                  = group_keys (map (fun r => field r kp) (cleaned records))).
  { apply group_keys_ext. intros x _.
    split; apply Permutation_in; apply Permutation_map;
      [apply Permutation_sym |]; exact Hclean. }
  rewrite (loaded_exact header (cleaned records) kp Hexact Hlim).
  rewrite (loaded_exact header (cleaned records') kp Hexact).
  2:{ unfold within_limit in Hlim. rewrite forallb_forall in Hlim.
      apply forallb_forall. intros p Hp.
      rewrite <- (mass_permutation p _ _ Hclean). exact (Hlim p Hp). }
  unfold totals. rewrite Hkeys. f_equal.
  apply map_ext. intro p. f_equal. apply map_ext. intro k. f_equal.
  symmetry. apply total_permutation. exact Hclean.
Qed.


End LoaderMore.

(** * Further properties of the delta table *)

Section DeltaMore.

Context `{PandasLib}.

Lemma lengths_diff_rows {L : Type} (rs : list (L * list (option Z))) :
  forall prev,
    map (fun r => length (snd r)) (diff_rows prev rs)
    = map (fun r => length (snd r)) rs.
Proof.
  induction rs as [| [l r] rest IH]; intro prev; simpl; [reflexivity |].
  rewrite length_map, length_seq, IH. reflexivity.
Qed.

(** X6.  The delta table has the shape of the cumulative table: the
    same columns, the same time axis, rows of the same lengths; and it
    holds a number in every cell, also where the cumulative table holds
    NaN. *)
Theorem daily_cases_shape (d : DataFrame) :
  columns (daily_cases d) = columns d /\
  index (daily_cases d) = index d /\
  map (fun r => length (snd r)) (rows (daily_cases d))
  = map (fun r => length (snd r)) (rows d) /\
  forall l r c, In (l, r) (rows (daily_cases d)) -> In c r -> c <> None.
Proof.
  split; [reflexivity |]. split; [apply index_daily_cases |]. split.
  - unfold daily_cases, fillna, diff. cbn [rows columns].
    rewrite map_map. cbn [snd].
    destruct (rows d) as [| [l r] rest]; [reflexivity |].
    cbn [map snd]. rewrite !length_map. f_equal.
    rewrite <- (lengths_diff_rows rest r).
    apply map_ext. intro x. rewrite length_map. reflexivity.
  - intros l r c Hr Hc. unfold daily_cases, fillna in Hr. cbn [rows] in Hr.
    apply in_map_iff in Hr. destruct Hr as [x [Hx _]]. injection Hx as _ <-.
    apply in_map_iff in Hc. destruct Hc as [c0 [<- _]].
    destruct c0; discriminate.
Qed.

Lemma delta_sum_next (daily : DataFrame) (e : string) (i : nat) :
  delta_sum daily e (S i)
  = (delta_sum daily e i + number (value_at daily (S i) e))%Z.
Proof.
  unfold delta_sum. rewrite seq_S, map_app, fold_right_app.
  cbn [map fold_right]. change (1 + i)%nat with (S i).
  generalize (number (value_at daily (S i) e)). intro x.
  generalize (map (fun j => number (value_at daily j e)) (seq 1 i)).
  intro l. induction l as [| a rest IH]; simpl; [lia |].
  simpl in IH. rewrite IH. lia.
Qed.

(** X7.  Adding up the deltas gives the cumulative table back: where
    the arithmetic is exact and an entity has values of at most [2^52]
    in absolute value in the rows 0 .. i, its value in row i is its
    value in row 0 plus the sum of its deltas over the rows 1 .. i. *)
Theorem cumulative_is_sum_of_deltas (d : DataFrame) (e : string) (i : nat) :
  exact_arithmetic ->
  (forall j, (j <= i)%nat ->
             exists x, value_at d j e = Some x /\
                       (2 * Z.abs x <= exact_limit)%Z) ->
  exists x0 xi,
    value_at d 0 e = Some x0 /\
    value_at d i e = Some xi /\
    xi = (x0 + delta_sum (daily_cases d) e i)%Z.
Proof.
  intros [_ [_ Hsub]].
  induction i as [| i IH]; intro Hall.
  - destruct (Hall 0%nat (le_n 0)) as [x0 [Hx0 _]].
    exists x0, x0. split; [exact Hx0 |]. split; [exact Hx0 |].
    unfold delta_sum. cbn. lia.
  - destruct (IH (fun j Hj => Hall j (Nat.le_trans _ _ _ Hj (Nat.le_succ_diag_r i))))
      as [x0 [xi [Hx0 [Hxi Hsum]]]].
    destruct (Hall (S i) (le_n _)) as [y [Hy Hby]].
    destruct (Hall i (Nat.le_succ_diag_r i)) as [xi' [Hxi' Hbx]].
    rewrite Hxi in Hxi'. injection Hxi' as <-.
    exists x0, y. split; [exact Hx0 |]. split; [exact Hy |].
    rewrite delta_sum_next, (daily_cases_later_row d e i xi y Hxi Hy).
    cbn [number]. rewrite Hsub by lia. lia.
Qed.

End DeltaMore.

(** * Further properties of the slicing *)

Lemma nondecreasing_from_bound (rs : list (Timestamp * list (option Z))) :
  forall prev,
    nondecreasing_from prev (map fst rs) = true ->
    forall x, In x rs -> exists t, fst x = Some t /\ (prev <= t)%Z.
Proof.
  induction rs as [| [l r] rest IH]; intros prev Hmono x Hx; [destruct Hx |].
  cbn [map fst nondecreasing_from] in Hmono.
  destruct l as [t |]; [| discriminate].
  apply andb_prop in Hmono. destruct Hmono as [Hle Hrest].
  apply Z.leb_le in Hle.
  destruct Hx as [<- | Hx].
  - exists t. split; [reflexivity | exact Hle].
  - destruct (IH t Hrest x Hx) as [t' [Ht' Hle']].
    exists t'. split; [exact Ht' | lia].
Qed.

Lemma sorted_rows_split (lo hi : Z) (rs : list (Timestamp * list (option Z))) :
  forall prev,
    nondecreasing_from prev (map fst rs) = true ->
    exists before after,
      rs = before ++ filter (fun r => in_window lo hi (fst r)) rs ++ after /\
      (forall x, In x before -> before_bound lo (fst x)) /\
      (forall x, In x after -> after_bound hi (fst x)).
Proof.
  induction rs as [| [l r] rest IH]; intros prev Hmono.
  - exists [], []. split; [reflexivity |]. split; intros x [].
  - pose proof (nondecreasing_from_bound ((l, r) :: rest) prev Hmono) as Hall.
    cbn [map fst nondecreasing_from] in Hmono.
    destruct l as [t |]; [| discriminate].
    apply andb_prop in Hmono. destruct Hmono as [_ Hrest].
    pose proof (nondecreasing_from_bound rest t Hrest) as Hlater.
    destruct (IH t Hrest) as [before [after [Hsplit [Hbefore Hafter]]]].
    cbn [filter fst in_window].
    destruct (Z.leb_spec lo t) as [Hlo | Hlo]; cbn [andb].
    + assert (Hnil : before = []).
      { destruct before as [| b before']; [reflexivity |]. exfalso.
        destruct (Hbefore b (or_introl eq_refl)) as [tb [Htb Hlt]].
        assert (Hb : In b rest) by (rewrite Hsplit; left; reflexivity).
        destruct (Hlater b Hb) as [tb' [Htb' Hle]].
        rewrite Htb in Htb'. injection Htb' as <-. lia. }
      subst before. cbn [app] in Hsplit.
      destruct (Z.leb_spec t hi) as [Hhi | Hhi].
      * exists [], after. split; [cbn [app]; f_equal; exact Hsplit |].
        split; [intros x [] | exact Hafter].
      * assert (Hnone : filter (fun r0 => in_window lo hi (fst r0)) rest = []).
        { apply filter_none. intros x Hx.
          destruct (Hlater x Hx) as [tx [Htx Hle]]. rewrite Htx. cbn [in_window].
          apply andb_false_intro2. apply Z.leb_gt. lia. }
        rewrite Hnone in Hsplit |- *. cbn [app] in Hsplit |- *.
        exists [], ((Some t, r) :: after). split; [cbn [app]; f_equal; exact Hsplit |].
        split; [intros x [] |].
        intros x [<- | Hx]; [exists t; split; [reflexivity | exact Hhi] |].
        apply Hafter. exact Hx.
    + exists ((Some t, r) :: before), after.
      split; [cbn [app]; f_equal; exact Hsplit |].
      split; [| exact Hafter].
      intros x [<- | Hx]; [exists t; split; [reflexivity | exact Hlo] |].
      apply Hbefore. exact Hx.
Qed.

Lemma monotonic_rows (rs : list (Timestamp * list (option Z))) :
  is_monotonic_increasing (map fst rs) = true ->
  rs = [] \/ exists t, nondecreasing_from t (map fst rs) = true.
Proof.
  destruct rs as [| [l r] rest]; [left; reflexivity |].
  cbn [map fst is_monotonic_increasing]. destruct l as [t |]; [| discriminate].
  intro Hmono. right. exists t. cbn [nondecreasing_from].
  rewrite Z.leb_refl. exact Hmono.
Qed.

Lemma fold_min_le (l : list Z) :
  forall t0 x, x = t0 \/ In x l -> (fold_left Z.min l t0 <= x)%Z.
Proof.
  induction l as [| a rest IH]; intros t0 x Hx; cbn [fold_left].
  - destruct Hx as [-> | []]. lia.
  - assert (Hm := IH (Z.min t0 a) (Z.min t0 a) (or_introl eq_refl)).
    destruct Hx as [Hx | [Hx | Hx]]; [lia | lia |].
    apply IH. right. exact Hx.
Qed.

Lemma fold_max_ge (l : list Z) :
  forall t0 x, x = t0 \/ In x l -> (x <= fold_left Z.max l t0)%Z.
Proof.
  induction l as [| a rest IH]; intros t0 x Hx; cbn [fold_left].
  - destruct Hx as [-> | []]. lia.
  - assert (Hm := IH (Z.max t0 a) (Z.max t0 a) (or_introl eq_refl)).
    destruct Hx as [Hx | [Hx | Hx]]; [lia | lia |].
    apply IH. right. exact Hx.
Qed.

Lemma In_valid (idx : list Timestamp) (t : Z) :
  In (Some t) idx -> In t (valid idx).
Proof.
  induction idx as [| l rest IH]; intro Hin; [destruct Hin |].
  destruct Hin as [-> | Hin]; [left; reflexivity |].
  destruct l; cbn [valid]; [right |]; apply IH; exact Hin.
Qed.

(** The least and the greatest timestamp of an axis bound all of them. *)
Lemma index_min_max_bound (idx : list Timestamp) (t : Z) :
  In (Some t) idx ->
  exists a b, index_min idx = Some a /\ index_max idx = Some b /\
              (a <= t <= b)%Z.
Proof.
  intro Hin. apply In_valid in Hin. unfold index_min, index_max.
  destruct (valid idx) as [| t0 rest]; [destruct Hin |].
  eexists. eexists. split; [reflexivity |]. split; [reflexivity |].
  assert (Hx : t = t0 \/ In t rest) by (destruct Hin; [left; symmetry |]; auto).
  split; [apply fold_min_le | apply fold_max_ge]; exact Hx.
Qed.

Section SlicingMore.

Context `{PandasLib}.

(** X8.  On a sorted axis a slice between two dates never fails and is
    one contiguous run of the table: the rows before it are earlier than
    the start, the rows after it later than the end, and the run holds
    exactly the rows inside the window. *)
Theorem loc_is_a_contiguous_run (f : DataFrame) (s e : string) (lo hi : Z) :
  cast_slice_bound s left = Some lo ->
  cast_slice_bound e right = Some hi ->
  is_monotonic_increasing (index f) = true ->
  exists before after,
    loc f s e = Ok (mkFrame (columns f) (window lo hi f)) /\
    rows f = before ++ window lo hi f ++ after /\
    (forall x, In x before -> before_bound lo (fst x)) /\
    (forall x, In x (window lo hi f) -> in_window lo hi (fst x) = true) /\
    (forall x, In x after -> after_bound hi (fst x)).
Proof.
  intros Hlo Hhi Hmono.
  assert (Hwin : forall x, In x (window lo hi f) -> in_window lo hi (fst x) = true).
  { intros x Hx. apply filter_In in Hx. exact (proj2 Hx). }
  destruct (monotonic_rows (rows f) Hmono) as [Hnil | [t Ht]].
  - exists [], []. unfold window in *. rewrite (loc_monotonic f s e lo hi Hlo Hhi Hmono).
    rewrite Hnil. cbn. repeat split; try reflexivity; intros x [].
  - destruct (sorted_rows_split lo hi (rows f) t Ht)
      as [before [after [Hsplit [Hbefore Hafter]]]].
    exists before, after.
    split; [apply (loc_monotonic f s e lo hi Hlo Hhi Hmono) |].
    split; [exact Hsplit |]. split; [exact Hbefore |].
    split; [exact Hwin | exact Hafter].
Qed.

(** X9.  The default range of the date picker, from the least to the
    greatest timestamp of the axis, leaves nothing out: on a sorted axis,
    a slice whose bounds reach at least that far returns the whole
    table. *)
Theorem default_range_selects_everything (f : DataFrame) (s e : string)
  (lo hi : Z) :
  cast_slice_bound s left = Some lo ->
  cast_slice_bound e right = Some hi ->
  is_monotonic_increasing (index f) = true ->
  (forall a, index_min (index f) = Some a -> (lo <= a)%Z) ->
  (forall b, index_max (index f) = Some b -> (b <= hi)%Z) ->
  loc f s e = Ok f.
Proof.
  intros Hlo Hhi Hmono Hmin Hmax.
  rewrite (loc_monotonic f s e lo hi Hlo Hhi Hmono).
  destruct f as [cols rs]. cbn [columns rows index] in *. do 2 f_equal.
  apply forallb_filter_id. apply forallb_forall. intros x Hx.
  assert (Hlabel : exists t, fst x = Some t).
  { destruct (monotonic_rows rs Hmono) as [-> | [t0 Ht0]]; [destruct Hx |].
    destruct (nondecreasing_from_bound rs t0 Ht0 x Hx) as [t [Ht _]]. eauto. }
  destruct Hlabel as [t Ht]. rewrite Ht. cbn [in_window].
  assert (Hin : In (Some t) (map fst rs)) by (rewrite <- Ht; apply in_map; exact Hx).
  destruct (index_min_max_bound _ t Hin) as [a [b [Ha [Hb Hab]]]].
  specialize (Hmin a Ha). specialize (Hmax b Hb).
  apply andb_true_intro. split; apply Z.leb_le; lia.
Qed.

End SlicingMore.

(** * Further properties of the callback *)

Lemma traverse_Forall2 {A B : Type} (f : A -> result B) (l : list A) :
  forall bs, traverse f l = Ok bs -> Forall2 (fun a b => f a = Ok b) l bs.
Proof.
  induction l as [| a rest IH]; simpl; intros bs Hbs.
  - injection Hbs as <-. constructor.
  - apply bind_ok in Hbs. destruct Hbs as [b [Hb Hbs]].
    apply bind_ok in Hbs. destruct Hbs as [bs' [Hbs' Hbs]].
    injection Hbs as <-. constructor; [exact Hb | apply IH; exact Hbs'].
Qed.

Lemma traverse_raise {A B : Type} (f : A -> result B) (e0 : exn) (l : list A) :
  (forall a e, f a = Raise e -> e = e0) ->
  forall e, traverse f l = Raise e -> e = e0.
Proof.
  intro Hf. induction l as [| a rest IH]; simpl; intros e He; [discriminate |].
  destruct (f a) as [b |] eqn:Hb; cbn [bind] in He.
  - destruct (traverse f rest) as [bs |]; cbn [bind] in He; [discriminate |].
    apply IH. exact He.
  - injection He as <-. apply (Hf a). exact Hb.
Qed.

Lemma combine_index_column (rs : list (Timestamp * list (option Z))) (p : nat) :
  combine (map fst rs) (map (fun r => cell (snd r) p) rs) = series_points rs p.
Proof.
  unfold series_points. induction rs as [| r rest IH]; simpl; [reflexivity |].
  rewrite IH. reflexivity.
Qed.

Lemma px_single_inv (k : chart) (f : DataFrame) (y t : string) (fig : Figure) :
  px_column k f (index f) y t = Ok fig ->
  exists p, get_loc y (columns f) = Some p /\
            fig = mkFigure k t [mkTrace "" (series_points (rows f) p)].
Proof.
  unfold px_column.
  destruct (get_loc y (columns f)) as [p |]; [| discriminate].
  intro Hfig. injection Hfig as <-. exists p. split; [reflexivity |].
  unfold index, column. rewrite combine_index_column. reflexivity.
Qed.

Lemma getitem_inv (f g : DataFrame) (labels : list string) :
  getitem f labels = Ok g ->
  exists ps,
    Forall2 (fun l p => get_loc l (columns f) = Some p) labels ps /\
    g = mkFrame labels (map (fun r => (fst r, map (cell (snd r)) ps)) (rows f)).
Proof.
  unfold getitem. intro Hg. apply bind_ok in Hg. destruct Hg as [ps [Hps Hg]].
  injection Hg as <-. exists ps. split; [| reflexivity].
  apply traverse_Forall2 in Hps.
  induction Hps as [| l p labels' ps' Hl _ IH]; constructor; [| exact IH].
  destruct (get_loc l (columns f)); [injection Hl as <-; reflexivity | discriminate].
Qed.

Lemma getitem_raise (f : DataFrame) (labels : list string) (e : exn) :
  getitem f labels = Raise e -> e = KeyError.
Proof.
  unfold getitem. intro Hg.
  destruct (traverse (fun l => match get_loc l (columns f) with
                               | Some p => Ok p
                               | None => Raise KeyError
                               end) labels) as [ps |] eqn:Hps;
    cbn [bind] in Hg; [discriminate |].
  injection Hg as <-.
  apply (traverse_raise _ KeyError) in Hps; [exact Hps |].
  intros l err. destruct (get_loc l (columns f)); [discriminate |].
  intro He. injection He as <-. reflexivity.
Qed.

Lemma Forall2_nth_get_loc (axis labels : list string) (ps : list nat) :
  Forall2 (fun l p => get_loc l axis = Some p) labels ps ->
  forall k, (k < length labels)%nat ->
            get_loc (nth k labels "") axis = Some (nth k ps 0%nat).
Proof.
  induction 1 as [| l p labels' ps' Hl _ IH]; intros k Hk; [inversion Hk |].
  destruct k as [| k]; [exact Hl |]. cbn [nth]. apply IH. cbn [length] in Hk. lia.
Qed.

(** A trace of a frame made by [getitem] plots the column of that name
    in the frame it was taken from. *)
Lemma trace_of_selected (f : DataFrame) (labels : list string) (ps : list nat)
  (y : string) (tr : Trace) :
  Forall2 (fun l p => get_loc l (columns f) = Some p) labels ps ->
  trace_of (mkFrame labels (map (fun r => (fst r, map (cell (snd r)) ps)) (rows f)))
           (index f) y = Ok tr ->
  exists p, get_loc y (columns f) = Some p /\
            tr = mkTrace y (series_points (rows f) p).
Proof.
  intros Hps. unfold trace_of. cbn [columns].
  destruct (get_loc y labels) as [k |] eqn:Hk; [| discriminate].
  intro Htr. injection Htr as <-.
  destruct (get_loc_lt _ _ _ Hk) as [Hlt Hnth].
  exists (nth k ps 0%nat). split.
  - rewrite <- Hnth. apply Forall2_nth_get_loc; assumption.
  - f_equal. unfold index, column. cbn [rows]. rewrite map_map. cbn [snd fst].
    rewrite <- combine_index_column. f_equal.
    apply map_ext. intro r.
    apply (cell_map_nth (cell (snd r)) ps k 0%nat).
    rewrite <- (Forall2_length Hps). exact Hlt.
Qed.

Lemma px_inv (k : chart) (g : DataFrame) (x : list Timestamp)
  (ys : list string) (t : string) (fig : Figure) :
  px k g x ys t = Ok fig ->
  kind fig = k /\ title fig = t /\
  Forall2 (fun y tr => trace_of g x y = Ok tr) ys (traces fig).
Proof.
  unfold px. intro Hfig. apply bind_ok in Hfig. destruct Hfig as [ts [Hts Hfig]].
  injection Hfig as <-. cbn. repeat split. apply traverse_Forall2. exact Hts.
Qed.

Lemma iloc_last_empty (axis : list string) : iloc_last (mkFrame axis []) = Raise IndexError.
Proof. reflexivity. Qed.

Lemma iloc_last_nonempty (f : DataFrame) :
  rows f <> [] -> exists l r, last (rows f) (None, []) = (l, r) /\
                              iloc_last f = Ok (row_series (columns f) r).
Proof.
  intro Hne. unfold iloc_last.
  destruct (rows f) as [| x rest] using rev_ind; [contradiction |].
  rewrite rev_app_distr, last_last. cbn [rev app]. destruct x as [l r]. eauto.
Qed.

Section CallbackMore.

Context `{PandasLib}.

(** With its three inputs present the callback runs the query. *)
Lemma update_graphs_present (country s e : string) (m : Module) :
  country <> "" -> s <> "" -> e <> "" ->
  update_graphs (Some country) (Some s) (Some e) m
  = (m, (fs <- query (mod_data m) (mod_daily_cases m) country s e ;;
         Ok (figures fs))%result).
Proof.
  intros Hc Hs He. rewrite update_graphs_run. cbn [not_ str].
  apply String.eqb_neq in Hc, Hs, He. rewrite Hc, Hs, He. reflexivity.
Qed.

Lemma figures_inv (r : result (Figure * Figure * Figure * Figure))
  (f1 f2 f3 f4 : Figure) :
  (fs <- r ;; Ok (figures fs))%result
  = Ok (figure f1, figure f2, figure f3, figure f4) ->
  r = Ok (f1, f2, f3, f4).
Proof.
  destruct r as [[[[a b] c] d] | err]; cbn; intro Hr; [| discriminate].
  injection Hr as -> -> -> ->. reflexivity.
Qed.

Lemma loc_window (f : DataFrame) (s e : string) (lo hi : Z) :
  cast_slice_bound s left = Some lo ->
  cast_slice_bound e right = Some hi ->
  is_monotonic_increasing (index f) = true ->
  loc f s e = Ok (mkFrame (columns f) (window lo hi f)).
Proof. apply loc_monotonic. Qed.

(** A query on sorted axes for an entity of both tables: [IndexError] on
    an empty window; otherwise figures, or the [KeyError] of a column
    selection. *)
Lemma query_known_entity (data daily : DataFrame) (country s e : string)
  (lo hi : Z) :
  cast_slice_bound s left = Some lo ->
  cast_slice_bound e right = Some hi ->
  is_monotonic_increasing (index data) = true ->
  is_monotonic_increasing (index daily) = true ->
  mem country (columns data) = true ->
  mem country (columns daily) = true ->
  (window lo hi data = [] /\ query data daily country s e = Raise IndexError) \/
  (window lo hi data <> [] /\
   (query data daily country s e = Raise KeyError \/
    exists fs, query data daily country s e = Ok fs)).
Proof.
  intros Hlo Hhi Hmono Hmono' Hknown Hknown'. unfold query.
  rewrite (loc_window data s e lo hi Hlo Hhi Hmono).
  rewrite (loc_window daily s e lo hi Hlo Hhi Hmono'). cbn [bind].
  match goal with
  | |- context [px_column line ?f ?x country ?t] =>
      destruct (px_single_ok line f x country t Hknown) as [f1 Hf1]
  end.
  rewrite Hf1. cbn [bind].
  match goal with
  | |- context [px_column bar ?f ?x country ?t] =>
      destruct (px_single_ok bar f x country t Hknown') as [f2 Hf2]
  end.
  rewrite Hf2. cbn [bind].
  destruct (window lo hi data) as [| x rest] eqn:Hwin.
  - left. split; [reflexivity |]. rewrite iloc_last_empty. reflexivity.
  - right. split; [discriminate |].
    destruct (iloc_last_nonempty (mkFrame (columns data) (x :: rest)))
      as [l [r [_ Hlast]]]; [discriminate |].
    rewrite Hlast. cbn [bind columns].
    set (top := map fst (head 5 (sort_values_descending (row_series (columns data) r)))).
    assert (Hself : forall g : DataFrame, columns g = top ->
                      forall y, In y top -> mem y (columns g) = true).
    { intros g -> y Hy. apply mem_In. exact Hy. }
    match goal with
    | |- context [getitem ?f top] => destruct (getitem f top) as [td | err] eqn:Htd
    end; cbn [bind].
    2:{ left. apply getitem_raise in Htd. subst err. reflexivity. }
    assert (Hcols : columns td = top).
    { apply getitem_inv in Htd. destruct Htd as [ps [_ ->]]. reflexivity. }
    match goal with
    | |- context [px line td ?xs top ?t] =>
        destruct (px_names line td xs top t (Hself td Hcols)) as [f3 [Hf3 _]]
    end.
    rewrite Hf3. cbn [bind].
    match goal with
    | |- context [getitem ?f top] => destruct (getitem f top) as [tc | err] eqn:Htc
    end; cbn [bind].
    2:{ left. apply getitem_raise in Htc. subst err. reflexivity. }
    assert (Hcols' : columns tc = top).
    { apply getitem_inv in Htc. destruct Htc as [ps [_ ->]]. reflexivity. }
    match goal with
    | |- context [px line tc ?xs top ?t] =>
        destruct (px_names line tc xs top t (Hself tc Hcols')) as [f4 [Hf4 _]]
    end.
    rewrite Hf4. cbn [bind]. right. eauto.
Qed.

Lemma selected_traces (f td : DataFrame) (rs : list (Timestamp * list (option Z)))
  (top : list string) (t : string) (fig : Figure) :
  getitem (mkFrame (columns f) rs) top = Ok td ->
  px line td (index (mkFrame (columns f) rs)) top t = Ok fig ->
  Forall2 (fun y tr => exists p, get_loc y (columns f) = Some p /\
                                 tr = mkTrace y (series_points rs p))
          top (traces fig).
Proof.
  intros Htd Hfig. apply getitem_inv in Htd. destruct Htd as [ps [Hps ->]].
  apply px_inv in Hfig. destruct Hfig as [_ [_ Htraces]].
  cbn [columns rows] in *.
  eapply Forall2_impl; [| exact Htraces].
  intros y tr Htr.
  exact (trace_of_selected (mkFrame (columns f) rs) top ps y tr Hps Htr).
Qed.

(** What a successful query returns, figure by figure. *)
Lemma query_ok_inv (data daily : DataFrame) (country s e : string) (lo hi : Z)
  (f1 f2 f3 f4 : Figure) :
  cast_slice_bound s left = Some lo ->
  cast_slice_bound e right = Some hi ->
  is_monotonic_increasing (index data) = true ->
  is_monotonic_increasing (index daily) = true ->
  query data daily country s e = Ok (f1, f2, f3, f4) ->
  exists p q l r,
    get_loc country (columns data) = Some p /\
    get_loc country (columns daily) = Some q /\
    f1 = mkFigure line ("Cumulative COVID-19 Cases in " ++ country)
           [mkTrace "" (series_points (window lo hi data) p)] /\
    f2 = mkFigure bar ("Daily New COVID-19 Cases in " ++ country)
           [mkTrace "" (series_points (window lo hi daily) q)] /\
    window lo hi data <> [] /\
    last (window lo hi data) (None, []) = (l, r) /\
    Forall2 (fun y tr => exists p', get_loc y (columns data) = Some p' /\
                           tr = mkTrace y (series_points (window lo hi data) p'))
            (map fst (head 5 (sort_values_descending (row_series (columns data) r))))
            (traces f3) /\
    Forall2 (fun y tr => exists q', get_loc y (columns daily) = Some q' /\
                           tr = mkTrace y (series_points (window lo hi daily) q'))
            (map fst (head 5 (sort_values_descending (row_series (columns data) r))))
            (traces f4).
Proof.
  intros Hlo Hhi Hmono Hmono'. unfold query.
  rewrite (loc_window data s e lo hi Hlo Hhi Hmono).
  rewrite (loc_window daily s e lo hi Hlo Hhi Hmono'). cbn [bind].
  intro Hq.
  apply bind_ok in Hq. destruct Hq as [g1 [Hg1 Hq]].
  apply bind_ok in Hq. destruct Hq as [g2 [Hg2 Hq]].
  apply bind_ok in Hq. destruct Hq as [last_row [Hlast Hq]].
  apply bind_ok in Hq. destruct Hq as [td [Htd Hq]].
  apply bind_ok in Hq. destruct Hq as [g3 [Hg3 Hq]].
  apply bind_ok in Hq. destruct Hq as [tc [Htc Hq]].
  apply bind_ok in Hq. destruct Hq as [g4 [Hg4 Hq]].
  injection Hq as <- <- <- <-.
  apply px_single_inv in Hg1. destruct Hg1 as [p [Hp ->]].
  apply px_single_inv in Hg2. destruct Hg2 as [q [Hq ->]].
  cbn [columns rows] in *.
  assert (Hne : window lo hi data <> []).
  { intro Hnil. rewrite Hnil in Hlast. discriminate. }
  destruct (iloc_last_nonempty (mkFrame (columns data) (window lo hi data)) Hne)
    as [l [r [Hl Hr]]].
  rewrite Hr in Hlast. injection Hlast as <-. cbn [columns rows] in *.
  exists p, q, l, r.
  repeat split; try assumption; try reflexivity.
  - exact (selected_traces data td (window lo hi data) _ _ g3 Htd Hg3).
  - exact (selected_traces daily tc (window lo hi daily) _ _ g4 Htc Hg4).
Qed.

End CallbackMore.

Lemma Forall2_names (axis : list string)
  (rs : list (Timestamp * list (option Z))) (top : list string) (ts : list Trace) :
  Forall2 (fun y tr => exists p, get_loc y axis = Some p /\
                                 tr = mkTrace y (series_points rs p)) top ts ->
  map name ts = top /\
  Forall (fun tr => exists p, get_loc (name tr) axis = Some p /\
                              points tr = series_points rs p) ts.
Proof.
  induction 1 as [| y tr top' ts' [p [Hp ->]] _ [IHn IHf]].
  - split; constructor.
  - split; [cbn; rewrite IHn; reflexivity |].
    constructor; [| exact IHf]. exists p. split; [exact Hp | reflexivity].
Qed.

Lemma row_series_names (axis : list string) (r : list (option Z)) :
  map fst (row_series axis r) = axis.
Proof.
  unfold row_series. rewrite map_map. cbn [fst]. unfold field. apply nth_seq_id.
Qed.

Section CallbackExtras.

Context `{PandasLib}.

(** X10.  The first two figures of a successful call show the selected
    entity alone: a line chart of its cumulative values and a bar chart
    of its deltas, each with one trace that has no name of its own, one
    point per row of the window, in the order of the table, under titles
    that name the entity. *)
Theorem entity_figures_show_the_window (m : Module) (country s e : string)
  (lo hi : Z) (f1 f2 f3 f4 : Figure) :
  country <> "" -> s <> "" -> e <> "" ->
  cast_slice_bound s left = Some lo ->
  cast_slice_bound e right = Some hi ->
  is_monotonic_increasing (index (mod_data m)) = true ->
  is_monotonic_increasing (index (mod_daily_cases m)) = true ->
  update_graphs (Some country) (Some s) (Some e) m
  = (m, Ok (figure f1, figure f2, figure f3, figure f4)) ->
  exists p q,
    get_loc country (columns (mod_data m)) = Some p /\
    get_loc country (columns (mod_daily_cases m)) = Some q /\
    f1 = mkFigure line ("Cumulative COVID-19 Cases in " ++ country)
           [mkTrace "" (series_points (window lo hi (mod_data m)) p)] /\
    f2 = mkFigure bar ("Daily New COVID-19 Cases in " ++ country)
           [mkTrace "" (series_points (window lo hi (mod_daily_cases m)) q)].
Proof.
  intros Hc Hs He Hlo Hhi Hmono Hmono' Hrun.
  rewrite (update_graphs_present country s e m Hc Hs He) in Hrun.
  injection Hrun as Hrun. apply figures_inv in Hrun.
  destruct (query_ok_inv _ _ _ _ _ lo hi _ _ _ _ Hlo Hhi Hmono Hmono' Hrun)
    as [p [q [l [r [Hp [Hq [Hf1 [Hf2 _]]]]]]]].
  exists p, q. repeat split; assumption.
Qed.

(** X11.  The two top-5 figures of a successful call show the same
    entities in the same order, at most five; every trace is named after
    a column and plots that column over the rows of the window: the
    cumulative values in the third figure, the deltas in the fourth. *)
Theorem top5_figures_show_the_window (m : Module) (country s e : string)
  (lo hi : Z) (f1 f2 f3 f4 : Figure) :
  country <> "" -> s <> "" -> e <> "" ->
  cast_slice_bound s left = Some lo ->
  cast_slice_bound e right = Some hi ->
  is_monotonic_increasing (index (mod_data m)) = true ->
  is_monotonic_increasing (index (mod_daily_cases m)) = true ->
  update_graphs (Some country) (Some s) (Some e) m
  = (m, Ok (figure f1, figure f2, figure f3, figure f4)) ->
  map name (traces f4) = map name (traces f3) /\
  (length (traces f3) <= 5)%nat /\
  Forall (fun tr => exists p,
            get_loc (name tr) (columns (mod_data m)) = Some p /\
            points tr = series_points (window lo hi (mod_data m)) p)
         (traces f3) /\
  Forall (fun tr => exists q,
            get_loc (name tr) (columns (mod_daily_cases m)) = Some q /\
            points tr = series_points (window lo hi (mod_daily_cases m)) q)
         (traces f4).
Proof.
  intros Hc Hs He Hlo Hhi Hmono Hmono' Hrun.
  rewrite (update_graphs_present country s e m Hc Hs He) in Hrun.
  injection Hrun as Hrun. apply figures_inv in Hrun.
  destruct (query_ok_inv _ _ _ _ _ lo hi _ _ _ _ Hlo Hhi Hmono Hmono' Hrun)
    as [p [q [l [r [_ [_ [_ [_ [_ [_ [H3 H4]]]]]]]]]]].
  apply Forall2_names in H3, H4.
  destruct H3 as [Hn3 Hf3]. destruct H4 as [Hn4 Hf4].
  split; [rewrite Hn3, Hn4; reflexivity |].
  split; [| split; assumption].
  rewrite <- (length_map name), Hn3, length_map. unfold head.
  apply firstn_le_length.
Qed.

(** A query on sorted axes for an entity that is not a column of both
    tables raises the [ValueError] of the plotting call. *)
Lemma query_unknown_entity (data daily : DataFrame) (country s e : string)
  (lo hi : Z) :
  cast_slice_bound s left = Some lo ->
  cast_slice_bound e right = Some hi ->
  is_monotonic_increasing (index data) = true ->
  is_monotonic_increasing (index daily) = true ->
  mem country (columns data) && mem country (columns daily) = false ->
  query data daily country s e = Raise ValueError.
Proof.
  intros Hlo Hhi Hmono Hmono' Hboth. unfold query.
  rewrite (loc_window _ s e lo hi Hlo Hhi Hmono).
  rewrite (loc_window _ s e lo hi Hlo Hhi Hmono'). cbn [bind].
  destruct (mem country (columns data)) eqn:Hknown; cbn [andb] in Hboth.
  - match goal with
    | |- context [px_column line ?f ?x country ?t] =>
        destruct (px_single_ok line f x country t Hknown) as [f1 Hf1]
    end.
    rewrite Hf1. cbn [bind].
    rewrite px_single_unknown by exact Hboth. reflexivity.
  - rewrite px_single_unknown by exact Hknown. reflexivity.
Qed.

(** X12.  With the three inputs present, date bounds and sorted axes, the
    callback raises [ValueError] exactly when the selected entity is not
    a column of both tables, whether the window is empty or not. *)
Theorem value_error_means_unknown_entity (m : Module) (country s e : string)
  (lo hi : Z) :
  country <> "" -> s <> "" -> e <> "" ->
  cast_slice_bound s left = Some lo ->
  cast_slice_bound e right = Some hi ->
  is_monotonic_increasing (index (mod_data m)) = true ->
  is_monotonic_increasing (index (mod_daily_cases m)) = true ->
  (update_graphs (Some country) (Some s) (Some e) m = (m, Raise ValueError) <->
   mem country (columns (mod_data m)) && mem country (columns (mod_daily_cases m))
   = false).
Proof.
  intros Hc Hs He Hlo Hhi Hmono Hmono'.
  rewrite (update_graphs_present country s e m Hc Hs He).
  destruct (mem country (columns (mod_data m))
            && mem country (columns (mod_daily_cases m))) eqn:Hboth.
  - split; [| discriminate]. intro Hrun. exfalso.
    apply andb_prop in Hboth. destruct Hboth as [Hknown Hknown'].
    destruct (query_known_entity _ _ country s e lo hi Hlo Hhi Hmono Hmono'
                Hknown Hknown') as [[_ Hq] | [_ [Hq | [fs Hq]]]];
      rewrite Hq in Hrun; discriminate.
  - split; [reflexivity |]. intros _.
    rewrite (query_unknown_entity _ _ country s e lo hi Hlo Hhi Hmono Hmono' Hboth).
    reflexivity.
Qed.

(** X13.  Under the same conditions the callback raises [IndexError]
    exactly when the entity is a column of both tables and no row of the
    cumulative table lies in the window. *)
Theorem index_error_means_empty_window (m : Module) (country s e : string)
  (lo hi : Z) :
  country <> "" -> s <> "" -> e <> "" ->
  cast_slice_bound s left = Some lo ->
  cast_slice_bound e right = Some hi ->
  is_monotonic_increasing (index (mod_data m)) = true ->
  is_monotonic_increasing (index (mod_daily_cases m)) = true ->
  (update_graphs (Some country) (Some s) (Some e) m = (m, Raise IndexError) <->
   mem country (columns (mod_data m)) = true /\
   mem country (columns (mod_daily_cases m)) = true /\
   window lo hi (mod_data m) = []).
Proof.
  intros Hc Hs He Hlo Hhi Hmono Hmono'.
  destruct (mem country (columns (mod_data m))
            && mem country (columns (mod_daily_cases m))) eqn:Hboth.
  - apply andb_prop in Hboth. destruct Hboth as [Hknown Hknown'].
    rewrite (update_graphs_present country s e m Hc Hs He).
    destruct (query_known_entity _ _ country s e lo hi Hlo Hhi Hmono Hmono'
                Hknown Hknown') as [[Hwin Hq] | [Hwin [Hq | [fs Hq]]]];
      rewrite Hq; cbn [bind]; split;
      try discriminate; try (intros _; repeat split; assumption);
      try (intros [_ [_ Hnil]]; contradiction); reflexivity.
  - rewrite (update_graphs_present country s e m Hc Hs He).
    rewrite (query_unknown_entity _ _ country s e lo hi Hlo Hhi Hmono Hmono' Hboth).
    cbn [bind]. split; [discriminate |].
    intros [Hknown [Hknown' _]]. rewrite Hknown, Hknown' in Hboth. discriminate.
Qed.

(** X14.  The four outputs go together: a call that returns hands back
    either four no-update sentinels, and then one of its inputs was
    missing, or four figures, and then all three inputs were present.
    It never updates some figures and keeps the others. *)
Theorem outputs_are_all_or_nothing (sel s e : option string) (m : Module)
  (o1 o2 o3 o4 : output) :
  snd (update_graphs sel s e m) = Ok (o1, o2, o3, o4) ->
  (not_ sel || not_ s || not_ e = true /\
   o1 = no_update /\ o2 = no_update /\ o3 = no_update /\ o4 = no_update) \/
  (not_ sel || not_ s || not_ e = false /\
   exists f1 f2 f3 f4,
     o1 = figure f1 /\ o2 = figure f2 /\ o3 = figure f3 /\ o4 = figure f4).
Proof.
  rewrite update_graphs_run. cbn [snd].
  destruct (not_ sel || not_ s || not_ e).
  - intro Hrun. injection Hrun as <- <- <- <-. left. repeat split.
  - intro Hrun. right. split; [reflexivity |].
    destruct (query (mod_data m) (mod_daily_cases m) (str sel) (str s) (str e))
      as [[[[f1 f2] f3] f4] | err]; cbn in Hrun; [| discriminate].
    injection Hrun as <- <- <- <-. exists f1, f2, f3, f4. repeat split.
Qed.

Lemma after_bound_outside (lo hi : Z) (t : Timestamp) :
  after_bound hi t -> in_window lo hi t = false.
Proof.
  intros [z [-> Hz]]. cbn [in_window]. apply andb_false_intro2.
  apply Z.leb_gt. exact Hz.
Qed.

(** X15.  When the columns of the table are distinct, as they are in a
    loaded table, no entity appears twice in the top-5 figure, and every
    entity shown is a column of the table. *)
Theorem top5_entities_are_distinct (d : DataFrame) (country s e : string)
  (lo hi : Z) (before after : list (Timestamp * list (option Z)))
  (t : Timestamp) (r : list (option Z)) :
  country <> "" -> s <> "" -> e <> "" ->
  cast_slice_bound s left = Some lo ->
  cast_slice_bound e right = Some hi ->
  is_monotonic_increasing (index d) = true ->
  mem country (columns d) = true ->
  NoDup (columns d) ->
  rows d = before ++ (t, r) :: after ->
  in_window lo hi t = true ->
  (forall x, In x after -> in_window lo hi (fst x) = false) ->
  sorts (reversed_values (row_series (columns d) r))
        (argsort (reversed_values (row_series (columns d) r))) = true ->
  exists f1 f2 f3 f4,
    update_graphs (Some country) (Some s) (Some e) (mkModule d (daily_cases d))
    = (mkModule d (daily_cases d), Ok (figure f1, figure f2, figure f3, figure f4)) /\
    NoDup (map name (traces f3)) /\
    incl (map name (traces f3)) (columns d).
Proof.
  intros Hc Hs He Hlo Hhi Hmono Hknown Hdistinct Hrows Ht Hafter Hsorts.
  destruct (query_ranks_last_row d country s e lo hi before after t r
              Hlo Hhi Hmono Hknown Hrows Ht Hafter Hsorts)
    as [f1 [f2 [f3 [f4 [Hq [Hn3 _]]]]]].
  exists f1, f2, f3, f4.
  split; [rewrite (update_graphs_present country s e _ Hc Hs He); cbn [mod_data mod_daily_cases];
          rewrite Hq; reflexivity |].
  pose proof (sort_values_permutation _ Hsorts) as Hperm.
  apply (Permutation_map fst) in Hperm. rewrite row_series_names in Hperm.
  rewrite Hn3. unfold head. rewrite <- firstn_map.
  set (names := map fst (sort_values_descending (row_series (columns d) r))) in *.
  split.
  - apply (NoDup_app_remove_r (firstn 5 names) (skipn 5 names)).
    rewrite firstn_skipn. apply (Permutation_NoDup Hperm). exact Hdistinct.
  - intros x Hx. apply (Permutation_in _ (Permutation_sym Hperm)).
    rewrite <- (firstn_skipn 5 names). apply in_or_app. left. exact Hx.
Qed.

(** X16.  The ranking depends on the end of the window only: two calls
    that differ in their start date, both with a window that ends on the
    same row, show the same entities in their top-5 figures. *)
Theorem ranking_depends_on_window_end (d : DataFrame) (country s1 s2 e : string)
  (lo1 lo2 hi : Z) (before after : list (Timestamp * list (option Z)))
  (t : Timestamp) (r : list (option Z)) :
  country <> "" -> s1 <> "" -> s2 <> "" -> e <> "" ->
  cast_slice_bound s1 left = Some lo1 ->
  cast_slice_bound s2 left = Some lo2 ->
  cast_slice_bound e right = Some hi ->
  is_monotonic_increasing (index d) = true ->
  mem country (columns d) = true ->
  rows d = before ++ (t, r) :: after ->
  in_window lo1 hi t = true ->
  in_window lo2 hi t = true ->
  (forall x, In x after -> after_bound hi (fst x)) ->
  sorts (reversed_values (row_series (columns d) r))
        (argsort (reversed_values (row_series (columns d) r))) = true ->
  exists f1 f2 f3 f4 g1 g2 g3 g4,
    update_graphs (Some country) (Some s1) (Some e) (mkModule d (daily_cases d))
    = (mkModule d (daily_cases d), Ok (figure f1, figure f2, figure f3, figure f4)) /\
    update_graphs (Some country) (Some s2) (Some e) (mkModule d (daily_cases d))
    = (mkModule d (daily_cases d), Ok (figure g1, figure g2, figure g3, figure g4)) /\
    map name (traces g3) = map name (traces f3) /\
    map name (traces g4) = map name (traces f4).
Proof.
  intros Hc Hs1 Hs2 He Hlo1 Hlo2 Hhi Hmono Hknown Hrows Ht1 Ht2 Hafter Hsorts.
  assert (Hout : forall lo x, In x after -> in_window lo hi (fst x) = false)
    by (intros lo x Hx; apply after_bound_outside; apply Hafter; exact Hx).
  destruct (query_ranks_last_row d country s1 e lo1 hi before after t r
              Hlo1 Hhi Hmono Hknown Hrows Ht1 (Hout lo1) Hsorts)
    as [f1 [f2 [f3 [f4 [Hq [Hn3 Hn4]]]]]].
  destruct (query_ranks_last_row d country s2 e lo2 hi before after t r
              Hlo2 Hhi Hmono Hknown Hrows Ht2 (Hout lo2) Hsorts)
    as [g1 [g2 [g3 [g4 [Hq' [Hm3 Hm4]]]]]].
  exists f1, f2, f3, f4, g1, g2, g3, g4.
  split; [rewrite (update_graphs_present country s1 e _ Hc Hs1 He);
          cbn [mod_data mod_daily_cases]; rewrite Hq; reflexivity |].
  split; [rewrite (update_graphs_present country s2 e _ Hc Hs2 He);
          cbn [mod_data mod_daily_cases]; rewrite Hq'; reflexivity |].
  split; [rewrite Hm3, Hn3; reflexivity | rewrite Hm4, Hn4, Hm3, Hn3; reflexivity].
Qed.


End CallbackExtras.

(** * The further properties on the sample inputs *)

Lemma distinct_NoDup (names : list string) : distinct names = true -> NoDup names.
Proof.
  induction names as [| n rest IH]; cbn [distinct]; intro Hd; [constructor |].
  apply andb_prop in Hd. destruct Hd as [Hn Hrest].
  constructor; [| apply IH; exact Hrest].
  intro Hin. apply mem_In in Hin. rewrite Hin in Hn. discriminate.
Qed.

Lemma loaded_columns_are_the_entities_witness :
  NoDup (columns Samples.table) /\
  (In "China" (columns Samples.table) <->
   ("China" <> "" /\
    exists r, In r (cleaned (tl Samples.source)) /\ field r 1 = "China")).
Proof.
  destruct (loaded_columns_are_the_entities (H := library) (hd [] Samples.source)
              (tl Samples.source) 1 Samples.table
              ltac:(reflexivity) ltac:(vm_compute; reflexivity)
              ltac:(vm_compute; reflexivity))
    as [_ [Hdistinct Hmem]].
  split; [exact Hdistinct | exact (Hmem "China")].
Defined.


Lemma loader_rejects_missing_label_column_witness :
  data MoreSamples.no_latitude = Raise KeyError.
Proof.
  exact (loader_rejects_missing_label_column (H := library)
           (hd [] MoreSamples.no_latitude) (tl MoreSamples.no_latitude)
           ltac:(vm_compute; reflexivity) ltac:(vm_compute; reflexivity)).
Defined.

Lemma loader_ignores_record_order_witness :
  data MoreSamples.shuffled = data Samples.source.
Proof.
  exact (loader_ignores_record_order (H := library) (hd [] Samples.source)
           (tl Samples.source) (tl MoreSamples.shuffled)
           ltac:(vm_compute; reflexivity)
           reference_arithmetic_exact
           ltac:(vm_compute; reflexivity)
           (Permutation_sym
              (Permutation_cons_append
                 [ ["Hubei"; "China"; "30.9756"; "112.2707"; "5"; "8"; "10"; "9"];
                   [""; "France"; "46.2276"; "2.2137"; "0"; ""; "3"; "3"] ]
                 ["Beijing"; "China"; "40.1824"; "116.4142"; "7"; "9"; "9"; "9"]))).
Defined.


Lemma daily_cases_shape_witness :
  index (daily_cases Samples.table) = index Samples.table.
Proof.
  exact (proj1 (proj2 (daily_cases_shape Samples.table))).
Defined.

Lemma cumulative_is_sum_of_deltas_witness :
  exists x0 xi,
    value_at Samples.table 0 "China" = Some x0 /\
    value_at Samples.table 3 "China" = Some xi /\
    xi = (x0 + delta_sum (daily_cases Samples.table) "China" 3)%Z.
Proof.
  apply (cumulative_is_sum_of_deltas (H := library) Samples.table "China" 3
           reference_arithmetic_exact).
  intros j Hj.
  destruct j as [| [| [| [| j]]]];
    [eexists; split; [reflexivity | vm_compute; discriminate] .. | lia].
Defined.

Lemma loc_is_a_contiguous_run_witness :
  exists before after,
    loc Samples.table "2020-01-23" "2020-01-24"
    = Ok (mkFrame (columns Samples.table)
            (window 1579737600000000000 1579910399999999999 Samples.table)) /\
    rows Samples.table
    = before ++ window 1579737600000000000 1579910399999999999 Samples.table
             ++ after /\
    (forall x, In x before -> before_bound 1579737600000000000 (fst x)) /\
    (forall x, In x (window 1579737600000000000 1579910399999999999 Samples.table) ->
               in_window 1579737600000000000 1579910399999999999 (fst x) = true) /\
    (forall x, In x after -> after_bound 1579910399999999999 (fst x)).
Proof.
  exact (loc_is_a_contiguous_run (H := library) Samples.table
           "2020-01-23" "2020-01-24" 1579737600000000000 1579910399999999999
           ltac:(vm_compute; reflexivity) ltac:(vm_compute; reflexivity)
           ltac:(vm_compute; reflexivity)).
Defined.

Lemma default_range_selects_everything_witness :
  loc Samples.table "2020-01-22" "2020-01-25" = Ok Samples.table.
Proof.
  exact (default_range_selects_everything (H := library) Samples.table
           "2020-01-22" "2020-01-25" 1579651200000000000 1579996799999999999
           ltac:(vm_compute; reflexivity) ltac:(vm_compute; reflexivity)
           ltac:(vm_compute; reflexivity)
           ltac:(intros a Ha; vm_compute in Ha; injection Ha as <-;
                 vm_compute; discriminate)
           ltac:(intros b Hb; vm_compute in Hb; injection Hb as <-;
                 vm_compute; discriminate)).
Defined.

Lemma france_two_days_run :
  update_graphs (Some "France") (Some "2020-01-22") (Some "2020-01-23")
    Samples.module
  = (Samples.module,
     Ok (figure (fst (fst (fst MoreSamples.france_two_days))),
         figure (snd (fst (fst MoreSamples.france_two_days))),
         figure (snd (fst MoreSamples.france_two_days)),
         figure (snd MoreSamples.france_two_days))).
Proof. vm_compute. reflexivity. Qed.

Lemma entity_figures_show_the_window_witness :
  exists p q,
    get_loc "France" (columns (mod_data Samples.module)) = Some p /\
    get_loc "France" (columns (mod_daily_cases Samples.module)) = Some q /\
    fst (fst (fst MoreSamples.france_two_days))
    = mkFigure line ("Cumulative COVID-19 Cases in " ++ "France")
        [mkTrace ""
           (series_points (window 1579651200000000000 1579823999999999999
                                  (mod_data Samples.module)) p)] /\
    snd (fst (fst MoreSamples.france_two_days))
    = mkFigure bar ("Daily New COVID-19 Cases in " ++ "France")
        [mkTrace ""
           (series_points (window 1579651200000000000 1579823999999999999
                                  (mod_daily_cases Samples.module)) q)].
Proof.
  exact (entity_figures_show_the_window (H := library) Samples.module
           "France" "2020-01-22" "2020-01-23"
           1579651200000000000 1579823999999999999 _ _ _ _
           ltac:(discriminate) ltac:(discriminate) ltac:(discriminate)
           ltac:(vm_compute; reflexivity) ltac:(vm_compute; reflexivity)
           ltac:(vm_compute; reflexivity) ltac:(vm_compute; reflexivity)
           france_two_days_run).
Defined.

Lemma top5_figures_show_the_window_witness :
  map name (traces (snd MoreSamples.france_two_days))
  = map name (traces (snd (fst MoreSamples.france_two_days))) /\
  (length (traces (snd (fst MoreSamples.france_two_days))) <= 5)%nat /\
  Forall (fun tr => exists p,
            get_loc (name tr) (columns (mod_data Samples.module)) = Some p /\
            points tr
            = series_points (window 1579651200000000000 1579823999999999999
                                    (mod_data Samples.module)) p)
         (traces (snd (fst MoreSamples.france_two_days))) /\
  Forall (fun tr => exists q,
            get_loc (name tr) (columns (mod_daily_cases Samples.module)) = Some q /\
            points tr
            = series_points (window 1579651200000000000 1579823999999999999
                                    (mod_daily_cases Samples.module)) q)
         (traces (snd MoreSamples.france_two_days)).
Proof.
  exact (top5_figures_show_the_window (H := library) Samples.module
           "France" "2020-01-22" "2020-01-23"
           1579651200000000000 1579823999999999999 _ _ _ _
           ltac:(discriminate) ltac:(discriminate) ltac:(discriminate)
           ltac:(vm_compute; reflexivity) ltac:(vm_compute; reflexivity)
           ltac:(vm_compute; reflexivity) ltac:(vm_compute; reflexivity)
           france_two_days_run).
Defined.

Lemma value_error_means_unknown_entity_witness :
  update_graphs (Some "Spain") (Some "2020-01-25") (Some "2020-01-23")
    Samples.module
  = (Samples.module, Raise ValueError).
Proof.
  exact (proj2 (value_error_means_unknown_entity (H := library) Samples.module
                  "Spain" "2020-01-25" "2020-01-23"
                  1579910400000000000 1579823999999999999
                  ltac:(discriminate) ltac:(discriminate) ltac:(discriminate)
                  ltac:(vm_compute; reflexivity) ltac:(vm_compute; reflexivity)
                  ltac:(vm_compute; reflexivity) ltac:(vm_compute; reflexivity))
               ltac:(vm_compute; reflexivity)).
Defined.

Lemma index_error_means_empty_window_witness :
  update_graphs (Some "China") (Some "2020-02-01") (Some "2020-02-29")
    Samples.module
  = (Samples.module, Raise IndexError).
Proof.
  exact (proj2 (index_error_means_empty_window (H := library) Samples.module
                  "China" "2020-02-01" "2020-02-29"
                  1580515200000000000 1583020799999999999
                  ltac:(discriminate) ltac:(discriminate) ltac:(discriminate)
                  ltac:(vm_compute; reflexivity) ltac:(vm_compute; reflexivity)
                  ltac:(vm_compute; reflexivity) ltac:(vm_compute; reflexivity))
               ltac:(repeat split; vm_compute; reflexivity)).
Defined.

Lemma outputs_are_all_or_nothing_witness :
  (not_ (Some "France") || not_ None || not_ (Some "2020-01-25") = true /\
   no_update = no_update /\ no_update = no_update /\
   no_update = no_update /\ no_update = no_update) \/
  (not_ (Some "France") || not_ None || not_ (Some "2020-01-25") = false /\
   exists f1 f2 f3 f4,
     no_update = figure f1 /\ no_update = figure f2 /\
     no_update = figure f3 /\ no_update = figure f4).
Proof.
  exact (outputs_are_all_or_nothing (H := library) (Some "France") None
           (Some "2020-01-25") Samples.module
           no_update no_update no_update no_update ltac:(reflexivity)).
Defined.

Lemma top5_entities_are_distinct_witness :
  exists f1 f2 f3 f4,
    update_graphs (Some "A") (Some "2020-01-22") (Some "2020-01-23")
      Samples.ranking_module
    = (Samples.ranking_module,
       Ok (figure f1, figure f2, figure f3, figure f4)) /\
    NoDup (map name (traces f3)) /\
    incl (map name (traces f3)) (columns Samples.ranking_table).
Proof.
  exact (top5_entities_are_distinct (H := library) Samples.ranking_table
           "A" "2020-01-22" "2020-01-23"
           1579651200000000000 1579823999999999999
           [(Samples.midnight 2020 1 22, repeat (Some 0%Z) 18)] []
           (Samples.midnight 2020 1 23) Samples.ranking_last_row
           ltac:(discriminate) ltac:(discriminate) ltac:(discriminate)
           ltac:(vm_compute; reflexivity) ltac:(vm_compute; reflexivity)
           ltac:(vm_compute; reflexivity) ltac:(vm_compute; reflexivity)
           ltac:(apply distinct_NoDup; vm_compute; reflexivity)
           ltac:(vm_compute; reflexivity) ltac:(vm_compute; reflexivity)
           ltac:(intros x [])
           ltac:(vm_compute; reflexivity)).
Defined.

Lemma ranking_depends_on_window_end_witness :
  exists f1 f2 f3 f4 g1 g2 g3 g4,
    update_graphs (Some "France") (Some "2020-01-22") (Some "2020-01-23")
      Samples.module
    = (Samples.module, Ok (figure f1, figure f2, figure f3, figure f4)) /\
    update_graphs (Some "France") (Some "2020-01-23") (Some "2020-01-23")
      Samples.module
    = (Samples.module, Ok (figure g1, figure g2, figure g3, figure g4)) /\
    map name (traces g3) = map name (traces f3) /\
    map name (traces g4) = map name (traces f4).
Proof.
  exact (ranking_depends_on_window_end (H := library) Samples.table
           "France" "2020-01-22" "2020-01-23" "2020-01-23"
           1579651200000000000 1579737600000000000 1579823999999999999
           [(Samples.midnight 2020 1 22, [Some 12; Some 0])]%Z
           [(Samples.midnight 2020 1 24, [Some 19; Some 3]);
            (Samples.midnight 2020 1 25, [Some 18; Some 3])]%Z
           (Samples.midnight 2020 1 23) [Some 17; Some 0]%Z
           ltac:(discriminate) ltac:(discriminate) ltac:(discriminate)
           ltac:(discriminate)
           ltac:(vm_compute; reflexivity) ltac:(vm_compute; reflexivity)
           ltac:(vm_compute; reflexivity) ltac:(vm_compute; reflexivity)
           ltac:(vm_compute; reflexivity) ltac:(vm_compute; reflexivity)
           ltac:(vm_compute; reflexivity) ltac:(vm_compute; reflexivity)
           ltac:(intros x [<- | [<- | []]]; eexists;
                 (split; [reflexivity | vm_compute; reflexivity]))
           ltac:(vm_compute; reflexivity)).
Defined.

